(** * docx-to-json: a shallow embedding of the training / query service

    The development follows the layout of the Python package [app]:
    - [PyStr]   : the [str] operations the code relies on
                  ([strip], [startswith], [endswith], slices, [join]);
    - [json], [exn], [outcome], [M] : JSON values, Python exceptions and the
                  state-and-exception monad the handlers run in;
    - [Platform]: the libraries and services the package calls but does not
                  define (PyPDF2, python-docx, the [json] module, the Gemini
                  client, the process environment);
    - [utils], [crud], [main] : one module per source file, one definition
                  per function, named as in the source.

    Conventions.
    - A Python [str] is a [string]; each character stands for the code point
      with the same number, so texts range over code points below 256.
    - [logging] calls write to the process log only and are not modelled.
    - A raised exception is an [outcome] of the form [Raise e]; [try] /
      [except] is [try_except], whose handler re-raises what its clauses do
      not catch. *)

From Stdlib Require Import ZArith List String Ascii Bool Lia.
From Stdlib Require Import Sorting.Sorted Sorting.Permutation.
From Stdlib Require Import Init.Byte Numbers.DecimalString.
Import ListNotations.

Set Warnings "-register-all".

Local Open Scope list_scope.
Local Open Scope string_scope.

(* ===================================================================== *)
(** ** Python strings *)
(* ===================================================================== *)

Module PyStr.

(** The newline character, written [\n] in the source. *)
Definition nl : string := String (ascii_of_nat 10) EmptyString.

(** The double-quote character. *)
Definition dq : string := String (ascii_of_nat 34) EmptyString.

(** [str.isspace] on one character: the characters [str.strip()] removes.
    Below 256 these are the code points 9-13, 28-32, 0x85 and 0xA0. *)
Definition is_space (c : ascii) : bool :=
  let n := nat_of_ascii c in
  (((9 <=? n) && (n <=? 13)) || ((28 <=? n) && (n <=? 32))
   || (n =? 133) || (n =? 160))%nat.

Fixpoint lstrip (s : string) : string :=
  match s with
  | EmptyString => EmptyString
  | String c s' => if is_space c then lstrip s' else s
  end.

Fixpoint rstrip (s : string) : string :=
  match s with
  | EmptyString => EmptyString
  | String c s' =>
      match rstrip s' with
      | EmptyString => if is_space c then EmptyString else String c EmptyString
      | r => String c r
      end
  end.

(** [s.strip()] *)
Definition strip (s : string) : string := rstrip (lstrip s).

(** [s.startswith(p)] *)
Definition startswith (s p : string) : bool := String.prefix p s.

(** [s.endswith(p)] *)
Fixpoint endswith (s p : string) : bool :=
  String.eqb s p
  || match s with
     | EmptyString => false
     | String _ s' => endswith s' p
     end.

(** [s[n:]] for [n >= 0] *)
Fixpoint drop (n : nat) (s : string) : string :=
  match n, s with
  | O, _ => s
  | S _, EmptyString => EmptyString
  | S n', String _ s' => drop n' s'
  end.

(** [s[:n]] for [n >= 0] *)
Fixpoint take (n : nat) (s : string) : string :=
  match n, s with
  | O, _ => EmptyString
  | S _, EmptyString => EmptyString
  | S n', String c s' => String c (take n' s')
  end.

(** [s[:-n]] for [n > 0]: all but the last [n] characters. *)
Definition drop_last (n : nat) (s : string) : string :=
  take (String.length s - n) s.

(** [sep.join(parts)] *)
Definition join (sep : string) (parts : list string) : string :=
  String.concat sep parts.

(** [str(n)] for a non-negative integer. *)
Definition str_of_nat (n : nat) : string :=
  NilZero.string_of_uint (Nat.to_uint n).

(** [str(z)] for an integer. *)
Definition str_of_Z (z : Z) : string :=
  NilZero.string_of_int (Z.to_int z).

(** [str(x)] for an optional string attribute: [None] prints as "None". *)
Definition str_of_opt (o : option string) : string :=
  match o with
  | Some s => s
  | None => "None"
  end.

(** Truth value of a string: [not s] holds exactly for the empty string. *)
Definition py_not (s : string) : bool :=
  match s with
  | EmptyString => true
  | String _ _ => false
  end.

(** Every character of [s] is whitespace ([s.strip() == ""]). *)
Fixpoint all_space (s : string) : bool :=
  match s with
  | EmptyString => true
  | String c s' => is_space c && all_space s'
  end.

(** [sub in s], as a proposition. *)
Definition contains (s sub : string) : Prop :=
  exists pre post, s = pre ++ sub ++ post.

End PyStr.
Import PyStr.

(* ===================================================================== *)
(** ** JSON values, exceptions, outcomes *)
(* ===================================================================== *)

(** A JSON-compatible Python value.  A [dict] keeps its items in insertion
    order; a float is kept by its [repr]. *)
Inductive json : Type :=
| JNull
| JBool (b : bool)
| JInt (z : Z)
| JFloat (repr : string)
| JStr (s : string)
| JList (items : list json)
| JDict (items : list (string * json)).

(** [d[key]] / [d.get(key)] on the items of a dict. *)
Fixpoint dict_get (key : string) (items : list (string * json)) : option json :=
  match items with
  | [] => None
  | (k, v) :: rest => if String.eqb k key then Some v else dict_get key rest
  end.

(** [key in d] *)
Definition dict_contains (key : string) (items : list (string * json)) : bool :=
  match dict_get key items with
  | Some _ => true
  | None => false
  end.

(** The exception classes the code distinguishes in its [except] clauses:
    [fastapi.HTTPException], [json.JSONDecodeError], and every other
    subclass of [Exception], kept by its message [str(e)]. *)
Inductive exn : Type :=
| HTTPException (status_code : Z) (detail : json)
| JSONDecodeError (msg : string)
| Exception (msg : string).

Inductive outcome (A : Type) : Type :=
| Ok (a : A)
| Raise (e : exn).
Arguments Ok {A} a.
Arguments Raise {A} e.

(* ===================================================================== *)
(** ** Data model: models.py, the session, the world *)
(* ===================================================================== *)

Module models.

(** A row of table [training_pairs]. *)
Record TrainingPair : Type := {
  id : Z;
  text_content : string;
  json_data : json;
  original_filename : option string
}.

(** A [TrainingPair(...)] object as constructed, before the session has
    flushed it: the primary key is not assigned yet. *)
Record Transient : Type := {
  new_text_content : string;
  new_json_data : json;
  new_original_filename : option string
}.

End models.
Import models.

(** A SQLAlchemy session bound to the SQLite file: the committed rows, the
    objects added and not yet committed, and the failure, if any, with
    which the storage answers the statements sent to it. *)
Record Session : Type := {
  rows : list TrainingPair;
  pending : list Transient;
  storage_error : option exn
}.

(** An uploaded file of a multipart form. [body] is what [await file.read()]
    yields. *)
Record UploadFile : Type := {
  filename : option string;
  content_type : option string;
  body : outcome (list byte)
}.

(** What the Gemini client answers to [generate_content_async]. *)
Record GenerateContentResponse : Type := {
  candidates : list string;
  prompt_feedback : option string;
  text : outcome string
}.

(** What an endpoint returns. *)
Record JSONResponse : Type := {
  status_code : Z;
  content : json
}.

(** Effects visible outside the process. *)
Inductive event : Type :=
| FileRead (name : option string)
| GenerateContent (model_name prompt : string).

Record World : Type := {
  db : Session;
  trace : list event
}.

(* ===================================================================== *)
(** ** The monad of handlers *)
(* ===================================================================== *)

Definition M (A : Type) : Type := World -> outcome A * World.

Definition ret {A} (a : A) : M A := fun w => (Ok a, w).

Definition raise {A} (e : exn) : M A := fun w => (Raise e, w).

Definition bind {A B} (m : M A) (k : A -> M B) : M B :=
  fun w =>
    match m w with
    | (Ok a, w') => k a w'
    | (Raise e, w') => (Raise e, w')
    end.

Notation "x <- m ;; k" := (bind m (fun x => k))
  (at level 61, m at next level, right associativity).
Notation "m ;;; k" := (bind m (fun _ => k))
  (at level 61, right associativity).

(** [try: body except ...: handler] *)
Definition try_except {A} (body : M A) (handler : exn -> M A) : M A :=
  fun w =>
    match body w with
    | (Ok a, w') => (Ok a, w')
    | (Raise e, w') => handler e w'
    end.

Definition lift {A} (o : outcome A) : M A := fun w => (o, w).

Definition emit (e : event) : M unit :=
  fun w => (Ok tt, {| db := db w; trace := (trace w ++ [e])%list |}).

Definition get_session : M Session := fun w => (Ok (db w), w).

Definition put_session (s : Session) : M unit :=
  fun w => (Ok tt, {| db := s; trace := trace w |}).

(** [await file.read()] *)
Definition file_read (file : UploadFile) : M (list byte) :=
  emit (FileRead (filename file)) ;;; lift (body file).

(* ===================================================================== *)
(** ** The platform: what the package imports *)
(* ===================================================================== *)

Class Platform : Type := {
  (** PyPDF2: [PdfReader(stream)] and [reader.pages]. *)
  Page : Type;
  PdfReader : list byte -> outcome (list Page);
  (** [page.extract_text()] *)
  page_extract_text : Page -> outcome string;
  (** python-docx: [Document(stream).paragraphs], each by its [.text]. *)
  Document : list byte -> outcome (list string);
  (** [json.loads] on a [str] and on [bytes]. *)
  json_loads : string -> outcome json;
  json_loads_bytes : list byte -> outcome json;
  (** [json.dumps(value, indent=n)] *)
  json_dumps : json -> Z -> string;
  (** [os.getenv("GEMINI_API_KEY")], read once at import. *)
  GEMINI_API_KEY : option string;
  (** [GenerativeModel(model_name, ...).generate_content_async(prompt)] *)
  generate_content_async : string -> string -> outcome GenerateContentResponse;
  (** [str(e)] of an [HTTPException]. *)
  http_exception_str : Z -> json -> string;
  (** Starlette: [JSONResponse(content=v)] renders its body when it is
      constructed, with [json.dumps(v, allow_nan=False, ...)]; the message
      of the exception this raises, when it raises. *)
  JSONResponse_render_error : json -> option string;
  (** SQLite: the failure, if any, with which the storage answers the
      statements that follow a commit it has accepted. *)
  storage_error_after_commit : option exn
}.

(** [str(e)] *)
Definition str_exn `{Platform} (e : exn) : string :=
  match e with
  | HTTPException c d => http_exception_str c d
  | JSONDecodeError m => m
  | Exception m => m
  end.

(* ===================================================================== *)
(** ** app/utils.py *)
(* ===================================================================== *)

Module utils.
Section WithPlatform.
Context `{P : Platform}.

Definition PDF_TYPE : string := "application/pdf".
Definition DOCX_TYPE : string :=
  "application/vnd.openxmlformats-officedocument.wordprocessingml.document".

Definition SUPPORTED_DOC_TYPES : list string := [PDF_TYPE; DOCX_TYPE].

(** [file.content_type == t] *)
Definition content_type_is (file : UploadFile) (t : string) : bool :=
  match content_type file with
  | Some ct => String.eqb ct t
  | None => false
  end.

(** [file.content_type in SUPPORTED_DOC_TYPES] *)
Definition content_type_supported (file : UploadFile) : bool :=
  existsb (content_type_is file) SUPPORTED_DOC_TYPES.

(** The [for page in reader.pages] loop of [extract_text_from_pdf], with
    [text] the accumulator; an exception of [page.extract_text()] leaves
    the loop. *)
Fixpoint pdf_pages_loop (pages : list Page) (text : string) : outcome string :=
  match pages with
  | [] => Ok text
  | page :: rest =>
      match page_extract_text page with
      | Raise e => Raise e
      | Ok page_text =>
          if py_not page_text
          then pdf_pages_loop rest text
          else pdf_pages_loop rest (text ++ (page_text ++ nl))
      end
  end.

Definition extract_text_from_pdf (file_stream : list byte) : string :=
  match PdfReader file_stream with
  | Raise _ => ""
  | Ok pages =>
      match pdf_pages_loop pages "" with
      | Ok text => strip text
      | Raise _ => ""
      end
  end.

Definition extract_text_from_docx (file_stream : list byte) : string :=
  match Document file_stream with
  | Raise _ => ""
  | Ok paragraphs =>
      strip (fold_left (fun text para => text ++ (para ++ nl)) paragraphs "")
  end.

Definition extract_text_from_upload (file : UploadFile) : M string :=
  if negb (content_type_supported file) then
    raise (HTTPException 400
             (JStr ("Unsupported file type: " ++ str_of_opt (content_type file)
                    ++ ". Please upload PDF or DOCX.")))
  else
    try_except
      (content <- file_read file ;;
       let text :=
         if content_type_is file PDF_TYPE then extract_text_from_pdf content
         else if content_type_is file DOCX_TYPE then extract_text_from_docx content
         else "" in
       ret text)
      (fun e =>
         match e with
         | HTTPException _ _ => raise e
         | _ =>
             raise (HTTPException 500
                      (JStr ("Error processing file " ++ str_of_opt (filename file)
                             ++ ": " ++ str_exn e)))
         end).

Definition parse_json_upload (file : UploadFile) : M json :=
  if negb (content_type_is file "application/json") then
    raise (HTTPException 400
             (JStr "JSON file must have content type 'application/json'"))
  else
    try_except
      (content <- file_read file ;;
       lift (json_loads_bytes content))
      (fun e =>
         match e with
         | JSONDecodeError _ =>
             raise (HTTPException 400 (JStr "Invalid JSON file format"))
         | _ =>
             raise (HTTPException 500
                      (JStr ("Error processing JSON file "
                             ++ str_of_opt (filename file) ++ ": " ++ str_exn e)))
         end).

(** *** Prompt construction (step 1 of [generate_json_with_gemini]) *)

(** [parts.append(x)] *)
Definition append (parts : list string) (x : string) : list string :=
  (parts ++ [x])%list.

(** [enumerate(xs)] *)
Definition enumerate {A} (xs : list A) : list (nat * A) :=
  combine (seq 0 (List.length xs)) xs.

Definition NO_EXAMPLES_LINE : string :=
  nl ++ "No examples provided. Analyze the input text and generate a suitable JSON structure.".

(** The five parts [prompt_parts] is initialised with. *)
Definition PROMPT_HEADER : list string :=
  [ "You are an assistant that analyzes text documents and generates structured JSON output based on the content.";
    "Follow the format of the examples provided.";
    "Given the following text input, generate the corresponding JSON object.";
    "Output ONLY the JSON object itself, without any introductory text, explanation, or markdown formatting like ```json.";
    nl ++ "--- Examples ---" ].

(** The list [prompt_parts] as it stands when it is joined. *)
Definition prompt_parts (input_text : string) (examples : list TrainingPair)
  : list string :=
  let prompt_parts := PROMPT_HEADER in
  let prompt_parts :=
    match examples with
    | [] => append prompt_parts NO_EXAMPLES_LINE
    | _ :: _ =>
        fold_left
          (fun prompt_parts '(i, example) =>
             let json_example_str := json_dumps (json_data example) 2 in
             let prompt_parts :=
               append prompt_parts (nl ++ "Example " ++ str_of_nat (i + 1) ++ ":") in
             let prompt_parts := append prompt_parts "Input Text:" in
             let prompt_parts :=
               append prompt_parts ("```" ++ nl ++ text_content example ++ nl ++ "```") in
             let prompt_parts := append prompt_parts "Output JSON:" in
             let prompt_parts :=
               append prompt_parts ("```json" ++ nl ++ json_example_str ++ nl ++ "```") in
             prompt_parts)
          (enumerate examples) prompt_parts
    end in
  let prompt_parts := append prompt_parts (nl ++ "--- New Input Text ---") in
  let prompt_parts := append prompt_parts ("```" ++ nl ++ input_text ++ nl ++ "```") in
  let prompt_parts := append prompt_parts (nl ++ "--- Generated JSON Output ---") in
  prompt_parts.

(** [full_prompt = "\n".join(prompt_parts)] *)
Definition full_prompt (input_text : string) (examples : list TrainingPair)
  : string :=
  join nl (prompt_parts input_text examples).

(** *** Response processing (step 5) *)

(** The two fence-removal assignments to [generated_content]. *)
Definition remove_fences (generated_content : string) : string :=
  let generated_content :=
    if startswith (strip generated_content) "```json"
    then drop 7 (strip generated_content)
    else generated_content in
  let generated_content :=
    if endswith (strip generated_content) "```"
    then drop_last 3 (strip generated_content)
    else generated_content in
  generated_content.

(** The inner [try] / [except] around [json.loads]. *)
Definition parse_generated (generated_content : string) : json :=
  let generated_content := remove_fences generated_content in
  match json_loads (strip generated_content) with
  | Ok generated_json => generated_json
  | Raise (JSONDecodeError _) =>
      JDict [ ("error", JStr "Failed to parse JSON from AI response.");
              ("raw_response", JStr generated_content) ]
  | Raise e =>
      JDict [ ("error",
               JStr ("An unexpected error occurred while processing the AI response: "
                     ++ str_exn e));
              ("raw_response", JStr generated_content) ]
  end.

(** [not GEMINI_API_KEY] fails for a non-empty string only. *)
Definition api_key_configured : bool :=
  match GEMINI_API_KEY with
  | Some key => negb (py_not key)
  | None => false
  end.

Definition NOT_CONFIGURED : json :=
  JDict [ ("error", JStr "Gemini API key not configured on server.") ].

Definition DEFAULT_MODEL : string := "gemini-1.5-flash".

Definition generate_json_with_gemini
    (input_text : string) (examples : list TrainingPair) (model_name : string)
  : M json :=
  if negb api_key_configured then ret NOT_CONFIGURED
  else
    try_except
      (let full_prompt := full_prompt input_text examples in
       emit (GenerateContent model_name full_prompt) ;;;
       response <- lift (generate_content_async model_name full_prompt) ;;
       match candidates response with
       | [] =>
           let feedback :=
             match prompt_feedback response with
             | Some f => f
             | None => "No feedback available"
             end in
           ret (JDict [ ("error",
                         JStr ("Content generation blocked. Feedback: " ++ feedback)) ])
       | _ :: _ =>
           generated_content <- lift (text response) ;;
           ret (parse_generated generated_content)
       end)
      (fun e =>
         ret (JDict [ ("error",
                       JStr ("An error occurred while communicating with the AI service: "
                             ++ str_exn e)) ])).

End WithPlatform.
End utils.

(* ===================================================================== *)
(** ** app/crud.py *)
(* ===================================================================== *)

Module crud.
Section WithPlatform.
Context `{P : Platform}.

(** *** The session operations [crud] calls *)

(** The key SQLite gives a new row: 1 in an empty table, otherwise one more
    than the largest key in use.  (Once the largest key is the largest
    64-bit integer SQLite tries unused keys at random instead; the stores
    considered here have not come that far, and the results that speak of
    the new key say so.) *)
Definition next_id (rs : list TrainingPair) : Z :=
  match map id rs with
  | [] => 1%Z
  | k :: ks => (1 + fold_right Z.max k ks)%Z
  end.

Definition persist (key : Z) (t : Transient) : TrainingPair :=
  {| id := key;
     text_content := new_text_content t;
     json_data := new_json_data t;
     original_filename := new_original_filename t |}.

(** [INSERT] of the pending objects, in the order they were added. *)
Fixpoint flush (rs : list TrainingPair) (ts : list Transient)
  : list TrainingPair * list TrainingPair :=
  match ts with
  | [] => (rs, [])
  | t :: ts' =>
      let r := persist (next_id rs) t in
      let '(rs', inserted) := flush (rs ++ [r])%list ts' in
      (rs', r :: inserted)
  end.

(** [db.add(obj)] *)
Definition db_add (t : Transient) : M unit :=
  s <- get_session ;;
  put_session {| rows := rows s;
                 pending := (pending s ++ [t])%list;
                 storage_error := storage_error s |}.

(** [db.commit()]: yields the rows the added objects have become.  Once
    the commit is accepted the rows are stored, whatever the storage
    answers afterwards. *)
Definition db_commit : M (list TrainingPair) :=
  s <- get_session ;;
  match storage_error s with
  | Some e => raise e
  | None =>
      let '(rs, inserted) := flush (rows s) (pending s) in
      put_session {| rows := rs; pending := [];
                     storage_error := storage_error_after_commit |} ;;;
      ret inserted
  end.

(** [db.refresh(obj)]: reads the row of [obj] again. *)
Definition db_refresh (obj : TrainingPair) : M TrainingPair :=
  s <- get_session ;;
  match storage_error s with
  | Some e => raise e
  | None =>
      match find (fun r => Z.eqb (id r) (id obj)) (rows s) with
      | Some r => ret r
      | None => raise (Exception "Could not refresh instance")
      end
  end.

(** [db.rollback()] *)
Definition db_rollback : M unit :=
  s <- get_session ;;
  put_session {| rows := rows s; pending := []; storage_error := storage_error s |}.

(** [ORDER BY id DESC] *)
Fixpoint insert_desc (p : TrainingPair) (l : list TrainingPair)
  : list TrainingPair :=
  match l with
  | [] => [p]
  | q :: l' => if (id q <=? id p)%Z then p :: l else q :: insert_desc p l'
  end.

Definition order_by_id_desc (l : list TrainingPair) : list TrainingPair :=
  fold_right insert_desc [] l.

(** [LIMIT n]; SQLite reads a negative [n] as no bound.  [n] is taken
    within SQLite's 64-bit integers. *)
Definition sql_limit (n : Z) (l : list TrainingPair) : list TrainingPair :=
  if (n <? 0)%Z then l else firstn (Z.to_nat n) l.

(** [db.query(TrainingPair).order_by(TrainingPair.id.desc()).limit(n).all()] *)
Definition query_recent (n : Z) : M (list TrainingPair) :=
  s <- get_session ;;
  match storage_error s with
  | Some e => raise e
  | None => ret (sql_limit n (order_by_id_desc (rows s)))
  end.

(** *** The functions of crud.py *)

Definition create_training_pair
    (text_content : string) (json_data : json) (original_filename : option string)
  : M TrainingPair :=
  try_except
    (let db_pair := {| new_text_content := text_content;
                       new_json_data := json_data;
                       new_original_filename := original_filename |} in
     db_add db_pair ;;;
     inserted <- db_commit ;;
     match rev inserted with
     | db_pair :: _ => db_refresh db_pair
     | [] => raise (Exception "Instance is not persistent within this Session")
     end)
    (fun e => db_rollback ;;; raise e).

Definition get_training_examples (limit : Z) : M (list TrainingPair) :=
  try_except
    (examples <- query_recent limit ;;
     ret examples)
    (fun _ => ret []).

(** [ORDER BY id] *)
Fixpoint insert_asc (p : TrainingPair) (l : list TrainingPair)
  : list TrainingPair :=
  match l with
  | [] => [p]
  | q :: l' => if (id p <=? id q)%Z then p :: l else q :: insert_asc p l'
  end.

Definition order_by_id (l : list TrainingPair) : list TrainingPair :=
  fold_right insert_asc [] l.

(** [db.query(TrainingPair).order_by(TrainingPair.id).all()] *)
Definition query_all : M (list TrainingPair) :=
  s <- get_session ;;
  match storage_error s with
  | Some e => raise e
  | None => ret (order_by_id (rows s))
  end.

Definition get_all_training_pairs : M (list TrainingPair) :=
  try_except
    (pairs <- query_all ;;
     ret pairs)
    (fun _ => ret []).

End WithPlatform.
End crud.

(* ===================================================================== *)
(** ** app/main.py *)
(* ===================================================================== *)

Module main.
Section WithPlatform.
Context `{P : Platform}.

(** The test [not t and t != ""] both handlers apply to the extracted
    text. *)
Definition yields_no_text (t : string) : bool :=
  py_not t && negb (String.eqb t "").

(** [except HTTPException as e: raise e] followed by
    [except Exception as e: raise HTTPException(500, detail)] *)
Definition reraise_http {A} (detail : exn -> string) (e : exn) : M A :=
  match e with
  | HTTPException _ _ => raise e
  | _ => raise (HTTPException 500 (JStr (detail e)))
  end.

Definition upload_training_data (doc_file json_file : UploadFile)
  : M JSONResponse :=
  (* 1. Extract text from the document *)
  extracted_text <-
    try_except
      (extracted_text <- utils.extract_text_from_upload doc_file ;;
       if yields_no_text extracted_text
       then ret extracted_text   (* a warning is logged, nothing else *)
       else ret extracted_text)
      (reraise_http
         (fun e => "Server error extracting text from document: " ++ str_exn e)) ;;
  (* 2. Parse the JSON file *)
  json_data <-
    try_except
      (utils.parse_json_upload json_file)
      (reraise_http
         (fun e => "Server error parsing JSON file: " ++ str_exn e)) ;;
  (* 3. Store the pair in the database *)
  try_except
    (crud.create_training_pair extracted_text json_data (filename doc_file) ;;;
     ret {| status_code := 201;
            content :=
              JDict [ ("message",
                       JStr ("Training data from '" ++ str_of_opt (filename doc_file)
                             ++ "' and '" ++ str_of_opt (filename json_file)
                             ++ "' uploaded and stored successfully.")) ] |})
    (fun _ =>
       raise (HTTPException 500 (JStr "Failed to store training data in database."))).

(** Step 1 of [process_query]: extract text from the uploaded query
    document. *)
Definition query_extract (doc_file : UploadFile) : M string :=
  try_except
    (input_text <- utils.extract_text_from_upload doc_file ;;
     if yields_no_text input_text
     then raise (HTTPException 400
                   (JStr ("Could not extract text from query document: "
                          ++ str_of_opt (filename doc_file))))
     else ret input_text)
    (reraise_http (fun _ => "Server error processing query document.")).

(** The [detail] of [HTTPException(status_code=500, detail=d)]: the
    constructor replaces a detail of [None] by the phrase of the status. *)
Definition detail_500 (d : json) : json :=
  match d with
  | JNull => JStr "Internal Server Error"
  | _ => d
  end.

(** [JSONResponse(content=v)], with the default status 200: the body is
    rendered when the response is constructed, and rendering can raise. *)
Definition new_JSONResponse (v : json) : M JSONResponse :=
  match JSONResponse_render_error v with
  | Some message => raise (Exception message)
  | None => ret {| status_code := 200; content := v |}
  end.

(** Steps 2 and 3 of [process_query]: retrieve the examples, call the
    generation utility and build the response. *)
Definition query_generate (input_text : string) : M JSONResponse :=
  (* 2. Retrieve training examples from the database *)
  examples <-
    try_except (crud.get_training_examples 5) (fun _ => ret []) ;;
  (* 3. Call the Gemini API utility function *)
  try_except
    (generated_json_result <-
       utils.generate_json_with_gemini input_text examples utils.DEFAULT_MODEL ;;
     match generated_json_result with
     | JDict items =>
         match dict_get "error" items with
         | Some err => raise (HTTPException 500 (detail_500 err))
         | None => new_JSONResponse generated_json_result
         end
     | _ => new_JSONResponse generated_json_result
     end)
    (reraise_http
       (fun e => "An unexpected server error occurred during JSON generation: "
                 ++ str_exn e)).

Definition process_query (doc_file : UploadFile) : M JSONResponse :=
  input_text <- query_extract doc_file ;;
  query_generate input_text.

End WithPlatform.
End main.

(* ===================================================================== *)
(** ** A reference platform for running the handlers *)
(* ===================================================================== *)

(** A codec for a fragment of JSON: [null], [true], [false], integers, the
    constants [NaN], [Infinity] and [-Infinity] that [json.loads] accepts,
    arrays, objects and strings, over text without backslash escapes and
    without fractions or exponents.  On this fragment it answers as the
    [json] module does; texts outside it are not meant to be fed to it.
    The general results below do not depend on it: it only serves to run
    the handlers on concrete requests. *)
Module MiniJson.

Definition is_ws (c : ascii) : bool :=
  let n := nat_of_ascii c in
  ((n =? 32) || (n =? 9) || (n =? 10) || (n =? 13))%nat.

Fixpoint skip_ws (l : list ascii) : list ascii :=
  match l with
  | [] => []
  | c :: l' => if is_ws c then skip_ws l' else l
  end.

Definition digit_of (c : ascii) : option Z :=
  let n := nat_of_ascii c in
  if ((48 <=? n) && (n <=? 57))%nat then Some (Z.of_nat (n - 48)) else None.

Fixpoint read_digits (acc : Z) (l : list ascii) : Z * list ascii :=
  match l with
  | [] => (acc, [])
  | c :: l' =>
      match digit_of c with
      | Some d => read_digits (10 * acc + d)%Z l'
      | None => (acc, l)
      end
  end.

Definition read_int (l : list ascii) : option (Z * list ascii) :=
  match l with
  | [] => None
  | c :: l' =>
      match digit_of c with
      | Some 0%Z => Some (0%Z, l')
      | Some d => Some (read_digits d l')
      | None => None
      end
  end.

Definition read_number (l : list ascii) : option (Z * list ascii) :=
  match l with
  | c :: l' =>
      if Ascii.eqb c "-"%char
      then match read_int l' with
           | Some (z, r) => Some ((- z)%Z, r)
           | None => None
           end
      else read_int l
  | [] => None
  end.

(** The characters of a string literal after its opening quote, up to
    the closing one. *)
Fixpoint read_string (l : list ascii) : option (string * list ascii) :=
  match l with
  | [] => None
  | c :: l' =>
      if Ascii.eqb c (ascii_of_nat 34) then Some (EmptyString, l')
      else if Ascii.eqb c (ascii_of_nat 92) then None
      else if (nat_of_ascii c <? 32)%nat then None
      else match read_string l' with
           | Some (s, r) => Some (String c s, r)
           | None => None
           end
  end.

Fixpoint read_word (w : list ascii) (l : list ascii) : option (list ascii) :=
  match w, l with
  | [], _ => Some l
  | a :: w', b :: l' => if Ascii.eqb a b then read_word w' l' else None
  | _ :: _, [] => None
  end.

(** [d[k] = v] *)
Fixpoint dict_set (k : string) (v : json) (items : list (string * json))
  : list (string * json) :=
  match items with
  | [] => [(k, v)]
  | (k', v') :: rest =>
      if String.eqb k' k then (k', v) :: rest else (k', v') :: dict_set k v rest
  end.

Fixpoint parse_value (fuel : nat) (l : list ascii) {struct fuel}
  : option (json * list ascii) :=
  match fuel with
  | O => None
  | S f =>
      match l with
      | [] => None
      | c :: r =>
          if Ascii.eqb c "["%char then
            match skip_ws r with
            | [] => None
            | c' :: r' =>
                if Ascii.eqb c' "]"%char then Some (JList [], r')
                else parse_items f (c' :: r') []
            end
          else if Ascii.eqb c "{"%char then
            match skip_ws r with
            | [] => None
            | c' :: r' =>
                if Ascii.eqb c' "}"%char then Some (JDict [], r')
                else parse_members f (c' :: r') []
            end
          else if Ascii.eqb c (ascii_of_nat 34) then
            match read_string r with
            | Some (s, r') => Some (JStr s, r')
            | None => None
            end
          else if Ascii.eqb c "n"%char then
            option_map (pair JNull) (read_word (list_ascii_of_string "ull") r)
          else if Ascii.eqb c "t"%char then
            option_map (pair (JBool true)) (read_word (list_ascii_of_string "rue") r)
          else if Ascii.eqb c "f"%char then
            option_map (pair (JBool false)) (read_word (list_ascii_of_string "alse") r)
          else if Ascii.eqb c "N"%char then
            option_map (pair (JFloat "nan")) (read_word (list_ascii_of_string "aN") r)
          else if Ascii.eqb c "I"%char then
            option_map (pair (JFloat "inf"))
              (read_word (list_ascii_of_string "nfinity") r)
          else
            match read_word (list_ascii_of_string "-Infinity") l with
            | Some r' => Some (JFloat "-inf", r')
            | None =>
                match read_number l with
                | Some (z, r') => Some (JInt z, r')
                | None => None
                end
            end
      end
  end
with parse_items (fuel : nat) (l : list ascii) (acc : list json) {struct fuel}
  : option (json * list ascii) :=
  match fuel with
  | O => None
  | S f =>
      match parse_value f l with
      | None => None
      | Some (v, r) =>
          match skip_ws r with
          | [] => None
          | c :: r' =>
              if Ascii.eqb c ","%char then parse_items f (skip_ws r') (acc ++ [v])%list
              else if Ascii.eqb c "]"%char then Some (JList (acc ++ [v])%list, r')
              else None
          end
      end
  end
with parse_members (fuel : nat) (l : list ascii) (acc : list (string * json))
       {struct fuel} : option (json * list ascii) :=
  match fuel with
  | O => None
  | S f =>
      match l with
      | [] => None
      | q :: r =>
          if negb (Ascii.eqb q (ascii_of_nat 34)) then None else
          match read_string r with
          | None => None
          | Some (k, r1) =>
              match skip_ws r1 with
              | [] => None
              | colon :: r2 =>
                  if negb (Ascii.eqb colon ":"%char) then None else
                  match parse_value f (skip_ws r2) with
                  | None => None
                  | Some (v, r3) =>
                      match skip_ws r3 with
                      | [] => None
                      | c :: r4 =>
                          if Ascii.eqb c ","%char
                          then parse_members f (skip_ws r4) (dict_set k v acc)
                          else if Ascii.eqb c "}"%char
                          then Some (JDict (dict_set k v acc), r4)
                          else None
                      end
                  end
              end
          end
      end
  end.

(** [json.loads(s)] for a [str] *)
Definition loads (s : string) : outcome json :=
  let l := list_ascii_of_string s in
  match parse_value (2 * List.length l + 2) (skip_ws l) with
  | None => Raise (JSONDecodeError "Expecting value")
  | Some (v, rest) =>
      match skip_ws rest with
      | [] => Ok v
      | _ :: _ => Raise (JSONDecodeError "Extra data")
      end
  end.

(** Two lower-case hexadecimal digits. *)
Definition hex2 (n : nat) : string :=
  let digit k := nth k (list_ascii_of_string "0123456789abcdef") "0"%char in
  String (digit (n / 16)) (String (digit (n mod 16)) EmptyString).

(** The [UnicodeDecodeError] of the UTF-8 codec at byte [n] in position
    [pos]. *)
Definition decode_error (n pos : nat) (reason : string) : exn :=
  Exception ("'utf-8' codec can't decode byte 0x" ++ hex2 n ++ " in position "
             ++ str_of_nat pos ++ ": " ++ reason).

(** What the fixture answers to bytes it does not cover. *)
Definition NOT_COVERED : exn :=
  Exception "MiniJson: bytes outside the fragment".

(** [b.decode("utf-8")], for texts of code points below 256: one-byte
    sequences, and the two-byte sequences led by 0xC2 and 0xC3.  Bytes that
    cannot start a sequence, and a lead byte without its continuation, are
    refused as the codec refuses them.  Sequences for larger code points
    have no text in this model and are not covered. *)
Fixpoint utf8_decode (pos : nat) (b : list byte) : outcome (list ascii) :=
  match b with
  | [] => Ok []
  | x :: rest =>
      let n := Byte.to_nat x in
      if (n <? 128)%nat then
        match utf8_decode (S pos) rest with
        | Ok l => Ok (ascii_of_byte x :: l)
        | Raise e => Raise e
        end
      else if ((n =? 194) || (n =? 195))%nat then
        match rest with
        | [] => Raise (decode_error n pos "unexpected end of data")
        | y :: rest' =>
            let m := Byte.to_nat y in
            if ((128 <=? m) && (m <=? 191))%nat then
              match utf8_decode (S (S pos)) rest' with
              | Ok l => Ok (ascii_of_nat ((n - 192) * 64 + (m - 128)) :: l)
              | Raise e => Raise e
              end
            else Raise (decode_error n pos "invalid continuation byte")
        end
      else if ((n <? 194) || (245 <=? n))%nat then
        Raise (decode_error n pos "invalid start byte")
      else Raise NOT_COVERED
  end.

(** [json.detect_encoding(b) == "utf-8"]: no byte order mark and no zero
    byte where UTF-16 or UTF-32 text would have one. *)
Definition detects_utf8 (b : list byte) : bool :=
  match map Byte.to_nat b with
  | 255 :: 254 :: _ => false
  | 254 :: 255 :: _ => false
  | 239 :: 187 :: 191 :: _ => false
  | [0; _] => false
  | [_; 0] => false
  | 0 :: _ :: _ :: _ :: _ => false
  | _ :: 0 :: _ :: _ :: _ => false
  | _ => true
  end.

(** [json.loads(b)] for [bytes]: the bytes are decoded first, then parsed.
    Covered are the byte strings [json] reads as UTF-8 and [utf8_decode]
    covers. *)
Definition loads_bytes (b : list byte) : outcome json :=
  if detects_utf8 b then
    match utf8_decode 0 b with
    | Ok l => loads (string_of_list_ascii l)
    | Raise e => Raise e
    end
  else Raise NOT_COVERED.

(** A float that [json.dumps(..., allow_nan=False)] refuses, by its
    [repr]. *)
Definition out_of_range (repr : string) : bool :=
  String.eqb repr "nan" || String.eqb repr "inf" || String.eqb repr "-inf".

Fixpoint has_out_of_range_float (v : json) : bool :=
  match v with
  | JFloat repr => out_of_range repr
  | JList items => existsb has_out_of_range_float items
  | JDict items => existsb (fun kv => has_out_of_range_float (snd kv)) items
  | _ => false
  end.

(** Rendering a response body: [json.dumps] refuses the floats that are
    not numbers of JSON. *)
Definition render_error (v : json) : option string :=
  if has_out_of_range_float v
  then Some "Out of range float values are not JSON compliant"
  else None.

Definition escape (c : ascii) : string :=
  let backslash := String (ascii_of_nat 92) EmptyString in
  if Ascii.eqb c (ascii_of_nat 34) then backslash ++ dq
  else if Ascii.eqb c (ascii_of_nat 92) then backslash ++ backslash
  else if Ascii.eqb c (ascii_of_nat 10) then backslash ++ "n"
  else String c EmptyString.

Fixpoint quote_body (s : string) : string :=
  match s with
  | EmptyString => EmptyString
  | String c s' => escape c ++ quote_body s'
  end.

Definition quote (s : string) : string := dq ++ quote_body s ++ dq.

Fixpoint pad (n : nat) : string :=
  match n with
  | O => EmptyString
  | S n' => String " "%char (pad n')
  end.

Fixpoint dumps_at (indent level : nat) (v : json) {struct v} : string :=
  match v with
  | JNull => "null"
  | JBool true => "true"
  | JBool false => "false"
  | JInt z => str_of_Z z
  | JFloat r => r
  | JStr s => quote s
  | JList [] => "[]"
  | JList items =>
      "[" ++ nl
      ++ join ("," ++ nl)
           (map (fun x => pad (indent * S level) ++ dumps_at indent (S level) x) items)
      ++ nl ++ pad (indent * level) ++ "]"
  | JDict [] => "{}"
  | JDict items =>
      "{" ++ nl
      ++ join ("," ++ nl)
           (map (fun kv => pad (indent * S level) ++ quote (fst kv) ++ ": "
                           ++ dumps_at indent (S level) (snd kv)) items)
      ++ nl ++ pad (indent * level) ++ "}"
  end.

(** [json.dumps(v, indent=n)] *)
Definition dumps (v : json) (indent : Z) : string :=
  dumps_at (Z.to_nat indent) 0 v.

End MiniJson.

(** A platform assembled from a PDF reader, a DOCX reader, a credential and
    a generation service; pages are given by what their [extract_text]
    yields. *)
Definition reference_platform_with
    (pdf : list byte -> outcome (list (outcome string)))
    (docx : list byte -> outcome (list string))
    (key : option string)
    (service : string -> string -> outcome GenerateContentResponse)
    (after_commit : option exn)
  : Platform :=
  {| Page := outcome string;
     PdfReader := pdf;
     page_extract_text := fun page => page;
     Document := docx;
     json_loads := MiniJson.loads;
     json_loads_bytes := MiniJson.loads_bytes;
     json_dumps := MiniJson.dumps;
     GEMINI_API_KEY := key;
     generate_content_async := service;
     http_exception_str :=
       fun c d => str_of_Z c ++ ": "
                  ++ match d with JStr s => s | _ => MiniJson.dumps d 0 end;
     JSONResponse_render_error := MiniJson.render_error;
     storage_error_after_commit := after_commit |}.

(** The platform whose storage keeps answering after a commit. *)
Definition reference_platform
    (pdf : list byte -> outcome (list (outcome string)))
    (docx : list byte -> outcome (list string))
    (key : option string)
    (service : string -> string -> outcome GenerateContentResponse)
  : Platform :=
  reference_platform_with pdf docx key service None.

(** Concrete requests and services for running the handlers. *)
Module Fixtures.

(** A PDF reader that knows one three-page document, whose second page
    has no text, and finds every other stream corrupt. *)
Definition SAMPLE_PDF : list byte := list_byte_of_string "%PDF-1.4 sample".

Definition pdf_reader (stream : list byte) : outcome (list (outcome string)) :=
  if String.eqb (string_of_list_byte stream) (string_of_list_byte SAMPLE_PDF)
  then Ok [Ok "Invoice 42"; Ok ""; Ok "Total: 10 "]
  else Raise (Exception "EOF marker not found").

(** A DOCX reader that knows one document of two paragraphs. *)
Definition SAMPLE_DOCX : list byte := list_byte_of_string "PK sample".

Definition docx_reader (stream : list byte) : outcome (list string) :=
  if String.eqb (string_of_list_byte stream) (string_of_list_byte SAMPLE_DOCX)
  then Ok ["Dear customer"; "Thank you."]
  else Raise (Exception "File is not a zip file").

(** A generation service that answers every prompt with [t]. *)
Definition answering (t : string) (model_name prompt : string)
  : outcome GenerateContentResponse :=
  Ok {| candidates := [t]; prompt_feedback := None; text := Ok t |}.

(** The platform with credential [key] whose service answers [t]. *)
Definition platform (key : option string) (t : string) : Platform :=
  reference_platform pdf_reader docx_reader key (answering t).

Definition empty_session : Session :=
  {| rows := []; pending := []; storage_error := None |}.

Definition start : World := {| db := empty_session; trace := [] |}.

Definition upload (name type : string) (content : list byte) : UploadFile :=
  {| filename := Some name; content_type := Some type; body := Ok content |}.

(** A stream no PDF reader can parse. *)
Definition corrupt_pdf : UploadFile :=
  upload "scan.pdf" "application/pdf" (list_byte_of_string "not a pdf").

Definition sample_pdf : UploadFile :=
  upload "invoice.pdf" "application/pdf" SAMPLE_PDF.

Definition pair (key : Z) (t : string) (v : json) : TrainingPair :=
  {| id := key; text_content := t; json_data := v; original_filename := None |}.

End Fixtures.

(* ===================================================================== *)
(** ** The components as the specification words them *)
(* ===================================================================== *)

Module Spec.

(** The text fragment of each page, in page order; the first page whose
    extraction fails makes the whole document fail. *)
Fixpoint page_fragments `{P : Platform} (pages : list Page) : outcome (list string) :=
  match pages with
  | [] => Ok []
  | page :: rest =>
      match page_extract_text page with
      | Raise e => Raise e
      | Ok fragment =>
          match page_fragments rest with
          | Ok fragments => Ok (fragment :: fragments)
          | Raise e => Raise e
          end
      end
  end.

(** "Concatenate fragments in page order, separated by a newline; pages
    that yield no text contribute nothing.  Result is trimmed of
    leading/trailing whitespace." *)
Definition pdf_text (fragments : list string) : string :=
  strip (join nl (filter (fun fragment => negb (py_not fragment)) fragments)).

(** "If the document is structurally corrupt, extraction degrades to an
    empty string." *)
Definition extract_pdf `{P : Platform} (stream : list byte) : string :=
  match PdfReader stream with
  | Raise _ => ""
  | Ok pages =>
      match page_fragments pages with
      | Raise _ => ""
      | Ok fragments => pdf_text fragments
      end
  end.

(** "A 1-based example index, the example's text content verbatim wrapped
    in a fenced block, and the example's annotation serialized as indented
    JSON wrapped in a fenced json block." *)
Definition example_block `{P : Platform} (index : nat) (example : TrainingPair)
  : list string :=
  [ nl ++ "Example " ++ str_of_nat index ++ ":";
    "Input Text:";
    "```" ++ nl ++ text_content example ++ nl ++ "```";
    "Output JSON:";
    "```json" ++ nl ++ json_dumps (json_data example) 2 ++ nl ++ "```" ].

(** The blocks of [examples], in the order given, numbered from [index]. *)
Fixpoint example_blocks `{P : Platform} (index : nat) (examples : list TrainingPair)
  : list string :=
  match examples with
  | [] => []
  | example :: rest =>
      (example_block index example ++ example_blocks (S index) rest)%list
  end.

(** "The new input text, verbatim, wrapped in a fenced block, preceded by a
    section marker", and the trailing marker line. *)
Definition input_section (input_text : string) : list string :=
  [ nl ++ "--- New Input Text ---";
    "```" ++ nl ++ input_text ++ nl ++ "```";
    nl ++ "--- Generated JSON Output ---" ].

(** The template of the prompt: preamble, examples or the explanatory
    line, input section; "all sections joined by single newlines". *)
Definition prompt_sections `{P : Platform}
    (input_text : string) (examples : list TrainingPair) : list string :=
  (utils.PROMPT_HEADER
   ++ match examples with
      | [] => [utils.NO_EXAMPLES_LINE]
      | _ :: _ => example_blocks 1 examples
      end
   ++ input_section input_text)%list.

(** A part that opens an example block: it starts with the label
    "
Example ". *)
Definition is_example_label (part : string) : bool :=
  startswith part (nl ++ "Example ").

(** What the query endpoint makes of the value the generation utility
    returned: the 500 error for a dict with a key "error", otherwise the
    response built from the value, or the 500 error into which a failure
    to build it is turned. *)
Definition query_answer `{P : Platform} (v : json) : outcome JSONResponse :=
  let respond :=
    match JSONResponse_render_error v with
    | Some message =>
        Raise (HTTPException 500
                 (JStr ("An unexpected server error occurred during JSON generation: "
                        ++ message)))
    | None => Ok {| status_code := 200; content := v |}
    end in
  match v with
  | JDict items =>
      match dict_get "error" items with
      | Some err => Raise (HTTPException 500 (main.detail_500 err))
      | None => respond
      end
  | _ => respond
  end.

(** "Ordered by identity descending (most recently created first)":
    [newer_first a b] lets [a] stand before [b]. *)
Definition newer_first (a b : TrainingPair) : Prop := (id b <= id a)%Z.

(** Ascending identity order: [older_first a b] lets [a] stand before [b]. *)
Definition older_first (a b : TrainingPair) : Prop := (id a <= id b)%Z.

End Spec.

(* ===================================================================== *)
(** * Results *)
(* ===================================================================== *)

(** ** Running the model *)

Example strip_removes_outer_whitespace :
  strip ("  a b " ++ nl) = "a b" /\ strip (nl ++ " ") = "".
Proof. split; reflexivity. Qed.

Example endswith_and_slices :
  endswith "[1]```" "```" = true
  /\ endswith "``" "```" = false
  /\ drop_last 3 "[1]```" = "[1]"
  /\ drop 7 "```json[1]" = "[1]".
Proof. repeat split. Qed.

Example extract_sample_pdf :
  @utils.extract_text_from_pdf (Fixtures.platform None "") Fixtures.SAMPLE_PDF
  = "Invoice 42" ++ nl ++ "Total: 10".
Proof. reflexivity. Qed.

Example extract_sample_docx :
  @utils.extract_text_from_docx (Fixtures.platform None "") Fixtures.SAMPLE_DOCX
  = "Dear customer" ++ nl ++ "Thank you.".
Proof. reflexivity. Qed.

Example prompt_without_examples :
  @utils.full_prompt (Fixtures.platform None "") "Hi" []
  = "You are an assistant that analyzes text documents and generates structured JSON output based on the content."
    ++ nl ++ "Follow the format of the examples provided."
    ++ nl ++ "Given the following text input, generate the corresponding JSON object."
    ++ nl ++ "Output ONLY the JSON object itself, without any introductory text, explanation, or markdown formatting like ```json."
    ++ nl ++ nl ++ "--- Examples ---"
    ++ nl ++ nl ++ "No examples provided. Analyze the input text and generate a suitable JSON structure."
    ++ nl ++ nl ++ "--- New Input Text ---"
    ++ nl ++ "```" ++ nl ++ "Hi" ++ nl ++ "```"
    ++ nl ++ nl ++ "--- Generated JSON Output ---".
Proof. reflexivity. Qed.

Example fenced_completion_is_parsed :
  @utils.parse_generated (Fixtures.platform (Some "key") "")
    ("```json" ++ nl ++ "{" ++ dq ++ "a" ++ dq ++ ":1}" ++ nl ++ "```")
  = JDict [("a", JInt 1)].
Proof. reflexivity. Qed.

Example save_then_read_back :
  let P := Fixtures.platform None "" in
  let '(_, w) := crud.create_training_pair "Memo" (JInt 1) None Fixtures.start in
  let '(_, w) := crud.create_training_pair "Note" (JInt 2) None w in
  fst (crud.get_training_examples 1 w) = Ok [Fixtures.pair 2 "Note" (JInt 2)].
Proof. reflexivity. Qed.

(** Unfolds the monad operations in the goal and the hypotheses. *)
Ltac run_monad :=
  unfold bind, try_except, ret, raise, lift, emit, file_read,
    get_session, put_session in *;
  simpl in *.

(** ** Declared content types *)

Lemma content_type_is_true (file : UploadFile) (t : string) :
  utils.content_type_is file t = true <-> content_type file = Some t.
Proof.
  unfold utils.content_type_is.
  destruct (content_type file) as [ct|]; split; intros H; try discriminate.
  - apply String.eqb_eq in H. now subst.
  - injection H as ->. apply String.eqb_refl.
Qed.

Lemma content_type_is_false (file : UploadFile) (t : string) :
  utils.content_type_is file t = false <-> content_type file <> Some t.
Proof.
  rewrite <- content_type_is_true.
  destruct (utils.content_type_is file t); split; congruence.
Qed.

Lemma content_type_unsupported (file : UploadFile) :
  content_type file <> Some utils.PDF_TYPE ->
  content_type file <> Some utils.DOCX_TYPE ->
  utils.content_type_supported file = false.
Proof.
  intros Hpdf Hdocx. unfold utils.content_type_supported. cbn [existsb utils.SUPPORTED_DOC_TYPES].
  apply content_type_is_false in Hpdf, Hdocx.
  now rewrite Hpdf, Hdocx.
Qed.

(** ** The extractor's type gate *)

(** C9. For every uploaded file whose declared type is neither the PDF
    type nor the DOCX type, [extract_text_from_upload] raises the 400
    "Unsupported file type" error, and the world it leaves is the one it
    found: the body of the file has not been read. *)
Theorem extract_unsupported_type_fails_before_read
    `{P : Platform} (file : UploadFile) (w : World) :
  content_type file <> Some utils.PDF_TYPE ->
  content_type file <> Some utils.DOCX_TYPE ->
  utils.extract_text_from_upload file w
  = (Raise (HTTPException 400
              (JStr ("Unsupported file type: " ++ str_of_opt (content_type file)
                     ++ ". Please upload PDF or DOCX."))),
     w).
Proof.
  intros Hpdf Hdocx. unfold utils.extract_text_from_upload.
  rewrite (content_type_unsupported file Hpdf Hdocx). reflexivity.
Qed.

Lemma extract_unsupported_type_fails_before_read_witness :
  let P := Fixtures.platform None "" in
  let file := Fixtures.upload "notes.txt" "text/plain" (list_byte_of_string "hello") in
  content_type file <> Some utils.PDF_TYPE
  /\ content_type file <> Some utils.DOCX_TYPE
  /\ utils.extract_text_from_upload file Fixtures.start
     = (Raise (HTTPException 400
                 (JStr "Unsupported file type: text/plain. Please upload PDF or DOCX.")),
        Fixtures.start).
Proof.
  intros P file.
  assert (Hpdf : content_type file <> Some utils.PDF_TYPE) by discriminate.
  assert (Hdocx : content_type file <> Some utils.DOCX_TYPE) by discriminate.
  split; [exact Hpdf | split; [exact Hdocx |]].
  exact (extract_unsupported_type_fails_before_read file Fixtures.start Hpdf Hdocx).
Defined.

(** ** The credential gate *)

Lemma api_key_not_configured `{P : Platform} :
  GEMINI_API_KEY = None \/ GEMINI_API_KEY = Some "" ->
  utils.api_key_configured = false.
Proof.
  unfold utils.api_key_configured. intros [-> | ->]; reflexivity.
Qed.

(** C8. When no API credential is configured (the variable is unset or
    empty), [generate_json_with_gemini] returns, for every input text,
    example list and model name, the payload
    [{"error": "Gemini API key not configured on server."}] and leaves the
    world as it found it: no request to the generation service is issued
    and no prompt reaches it. *)
Theorem generate_without_credential
    `{P : Platform} (input_text : string) (examples : list TrainingPair)
    (model_name : string) (w : World) :
  GEMINI_API_KEY = None \/ GEMINI_API_KEY = Some "" ->
  utils.generate_json_with_gemini input_text examples model_name w
  = (Ok (JDict [("error", JStr "Gemini API key not configured on server.")]), w).
Proof.
  intros Hkey. unfold utils.generate_json_with_gemini.
  rewrite (api_key_not_configured Hkey). reflexivity.
Qed.

Lemma generate_without_credential_witness :
  let P := Fixtures.platform None "[1]" in
  (GEMINI_API_KEY = None \/ GEMINI_API_KEY = Some "")
  /\ utils.generate_json_with_gemini "Invoice 42"
       [Fixtures.pair 1 "Invoice 7" (JInt 7)] utils.DEFAULT_MODEL Fixtures.start
     = (Ok (JDict [("error", JStr "Gemini API key not configured on server.")]),
        Fixtures.start).
Proof.
  intros P.
  assert (Hkey : GEMINI_API_KEY = None \/ GEMINI_API_KEY = Some "")
    by (left; reflexivity).
  split; [exact Hkey |].
  exact (generate_without_credential "Invoice 42"
           [Fixtures.pair 1 "Invoice 7" (JInt 7)] utils.DEFAULT_MODEL
           Fixtures.start Hkey).
Defined.

(** ** The JSON upload parser *)

(** What [parse_json_upload] does once the declared type is accepted, by
    the outcome of reading and decoding the body. *)
Lemma parse_json_upload_accepted `{P : Platform} (file : UploadFile) (w : World) :
  content_type file = Some "application/json" ->
  utils.parse_json_upload file w
  = (match body file with
     | Ok content =>
         match json_loads_bytes content with
         | Ok v => Ok v
         | Raise (JSONDecodeError _) =>
             Raise (HTTPException 400 (JStr "Invalid JSON file format"))
         | Raise e =>
             Raise (HTTPException 500
                      (JStr ("Error processing JSON file "
                             ++ str_of_opt (filename file) ++ ": " ++ str_exn e)))
         end
     | Raise (JSONDecodeError _) =>
         Raise (HTTPException 400 (JStr "Invalid JSON file format"))
     | Raise e =>
         Raise (HTTPException 500
                  (JStr ("Error processing JSON file "
                         ++ str_of_opt (filename file) ++ ": " ++ str_exn e)))
     end,
     {| db := db w; trace := (trace w ++ [FileRead (filename file)])%list |}).
Proof.
  intros Hct. unfold utils.parse_json_upload.
  apply content_type_is_true in Hct. rewrite Hct. cbn [negb]. run_monad.
  destruct (body file) as [content | e].
  - destruct (json_loads_bytes content) as [v | e]; [reflexivity |].
    destruct e; reflexivity.
  - destruct e; reflexivity.
Qed.

(** C7, as the code has it. For every uploaded JSON file:
    - a declared type other than "application/json" is refused with the 400
      error "JSON file must have content type 'application/json'", whatever
      the body, which is not read;
    - with the right type the body is read and handed to [json.loads], and
      the answer is the decoded value when [json.loads] returns one; the
      distinct 400 error "Invalid JSON file format" when the exception
      raised, by the decoder or by the read, is a [JSONDecodeError]; and a
      500 error that carries the exception's message for every other
      exception raised by the read or by the decoder. *)
Theorem parse_json_upload_outcomes `{P : Platform} (file : UploadFile) (w : World) :
  (content_type file <> Some "application/json" ->
   utils.parse_json_upload file w
   = (Raise (HTTPException 400
               (JStr "JSON file must have content type 'application/json'")), w))
  /\
  (content_type file = Some "application/json" ->
   utils.parse_json_upload file w
   = (match body file with
      | Ok content =>
          match json_loads_bytes content with
          | Ok v => Ok v
          | Raise (JSONDecodeError _) =>
              Raise (HTTPException 400 (JStr "Invalid JSON file format"))
          | Raise e =>
              Raise (HTTPException 500
                       (JStr ("Error processing JSON file "
                              ++ str_of_opt (filename file) ++ ": " ++ str_exn e)))
          end
      | Raise (JSONDecodeError _) =>
          Raise (HTTPException 400 (JStr "Invalid JSON file format"))
      | Raise e =>
          Raise (HTTPException 500
                   (JStr ("Error processing JSON file "
                          ++ str_of_opt (filename file) ++ ": " ++ str_exn e)))
      end,
      {| db := db w; trace := (trace w ++ [FileRead (filename file)])%list |})).
Proof.
  split.
  - intros Hct. unfold utils.parse_json_upload.
    apply content_type_is_false in Hct. rewrite Hct. reflexivity.
  - apply parse_json_upload_accepted.
Qed.

Lemma parse_json_upload_outcomes_witness :
  let P := Fixtures.platform None "" in
  let wrong := Fixtures.upload "data.txt" "text/plain" (list_byte_of_string "[1, 2]") in
  let good := Fixtures.upload "data.json" "application/json" (list_byte_of_string "[1, 2]") in
  let bad := Fixtures.upload "data.json" "application/json" (list_byte_of_string "[1, ") in
  let lost := {| filename := Some "data.json"; content_type := Some "application/json";
                 body := Raise (Exception "client disconnected") |} in
  let w' := {| db := Fixtures.empty_session; trace := [FileRead (Some "data.json")] |} in
  utils.parse_json_upload wrong Fixtures.start
  = (Raise (HTTPException 400
              (JStr "JSON file must have content type 'application/json'")),
     Fixtures.start)
  /\ utils.parse_json_upload good Fixtures.start = (Ok (JList [JInt 1; JInt 2]), w')
  /\ utils.parse_json_upload bad Fixtures.start
     = (Raise (HTTPException 400 (JStr "Invalid JSON file format")), w')
  /\ utils.parse_json_upload lost Fixtures.start
     = (Raise (HTTPException 500
                 (JStr "Error processing JSON file data.json: client disconnected")), w').
Proof.
  intros P wrong good bad lost w'. split; [| split; [| split]].
  - apply (proj1 (parse_json_upload_outcomes wrong Fixtures.start)). discriminate.
  - exact (proj2 (parse_json_upload_outcomes good Fixtures.start) eq_refl).
  - exact (proj2 (parse_json_upload_outcomes bad Fixtures.start) eq_refl).
  - exact (proj2 (parse_json_upload_outcomes lost Fixtures.start) eq_refl).
Defined.

(** C7, as stated, fails on a body that is not text: with the right
    declared type, the single byte 0xFF is no JSON document; [json.loads]
    refuses it with the decoding error of the UTF-8 codec, which is not a
    [JSONDecodeError], and the parser answers with a 500 error, not with
    the 400 "Invalid JSON file format". *)
Lemma parse_json_upload_undecodable_body :
  let P := Fixtures.platform None "" in
  let file := Fixtures.upload "data.json" "application/json" [Byte.xff] in
  content_type file = Some "application/json"
  /\ json_loads_bytes [Byte.xff]
     = Raise (Exception "'utf-8' codec can't decode byte 0xff in position 0: invalid start byte")
  /\ utils.parse_json_upload file Fixtures.start
     = (Raise (HTTPException 500
                 (JStr "Error processing JSON file data.json: 'utf-8' codec can't decode byte 0xff in position 0: invalid start byte")),
        {| db := Fixtures.empty_session; trace := [FileRead (Some "data.json")] |}).
Proof.
  intros P file. split; [reflexivity | split; reflexivity].
Qed.

(** ** Strings *)

Lemma append_assoc (a b c : string) : (a ++ b) ++ c = a ++ (b ++ c).
Proof. induction a as [|x a IH]; simpl; [reflexivity | now rewrite IH]. Qed.

Lemma append_nil_r (a : string) : a ++ "" = a.
Proof. induction a as [|x a IH]; simpl; [reflexivity | now rewrite IH]. Qed.

Lemma py_not_true (s : string) : py_not s = true <-> s = "".
Proof. destruct s; simpl; split; congruence. Qed.

Lemma rstrip_app_nl (s : string) : rstrip (s ++ nl) = rstrip s.
Proof.
  induction s as [|c s IH]; [reflexivity |].
  cbn [append rstrip]. now rewrite IH.
Qed.

(** A trailing newline does not survive [strip]. *)
Lemma strip_app_nl (s : string) : strip (s ++ nl) = strip s.
Proof.
  unfold strip. induction s as [|c s IH]; [reflexivity |].
  cbn [append lstrip]. destruct (is_space c); [exact IH |].
  exact (rstrip_app_nl (String c s)).
Qed.

Lemma rstrip_cons (c : ascii) (s : string) :
  rstrip (String c s)
  = match rstrip s with
    | EmptyString => if is_space c then EmptyString else String c EmptyString
    | r => String c r
    end.
Proof. reflexivity. Qed.

Lemma rstrip_idempotent (s : string) : rstrip (rstrip s) = rstrip s.
Proof.
  induction s as [|c s IH]; [reflexivity |].
  rewrite rstrip_cons. destruct (rstrip s) as [|d r] eqn:E.
  - destruct (is_space c) eqn:Ec; [reflexivity |]. rewrite rstrip_cons. cbn [rstrip].
    now rewrite Ec.
  - rewrite rstrip_cons, IH. reflexivity.
Qed.

Lemma lstrip_rstrip_lstrip (s : string) : lstrip (rstrip (lstrip s)) = rstrip (lstrip s).
Proof.
  induction s as [|c s IH]; [reflexivity |].
  cbn [lstrip]. destruct (is_space c) eqn:Ec; [exact IH |].
  cbn [rstrip]. destruct (rstrip s) as [|d r]; rewrite ?Ec; cbn [lstrip]; now rewrite Ec.
Qed.

(** [strip] yields a trimmed string: stripping again changes nothing. *)
Lemma strip_idempotent (s : string) : strip (strip s) = strip s.
Proof.
  unfold strip. rewrite lstrip_rstrip_lstrip. apply rstrip_idempotent.
Qed.

(** Joining with newlines, and ending every part with a newline, differ by
    the last newline only. *)
Lemma concat_lines (x : string) (l : list string) :
  String.concat "" (map (fun f => f ++ nl) (x :: l)) = join nl (x :: l) ++ nl.
Proof.
  unfold join. revert x. induction l as [|y l IH]; intros x.
  - reflexivity.
  - change (map (fun f => f ++ nl) (x :: y :: l))
      with ((x ++ nl) :: map (fun f => f ++ nl) (y :: l)).
    change (String.concat "" ((x ++ nl) :: map (fun f => f ++ nl) (y :: l)))
      with ((x ++ nl) ++ "" ++ String.concat "" (map (fun f => f ++ nl) (y :: l))).
    rewrite IH.
    change (String.concat nl (x :: y :: l)) with (x ++ nl ++ String.concat nl (y :: l)).
    cbn ["++"%string]. now rewrite !append_assoc.
Qed.

Lemma strip_concat_lines (l : list string) :
  strip (String.concat "" (map (fun f => f ++ nl) l)) = strip (join nl l).
Proof.
  destruct l as [|x l]; [reflexivity |].
  rewrite concat_lines. apply strip_app_nl.
Qed.

(** ** PDF extraction *)

(** The page loop appends, to the text it starts from, every non-empty
    fragment followed by a newline. *)
Lemma pdf_pages_loop_fragments `{P : Platform} (pages : list Page) (acc : string) :
  utils.pdf_pages_loop pages acc
  = match Spec.page_fragments pages with
    | Raise e => Raise e
    | Ok fragments =>
        Ok (acc ++ String.concat ""
                     (map (fun f => f ++ nl)
                        (filter (fun f => negb (py_not f)) fragments)))
    end.
Proof.
  revert acc. induction pages as [|page rest IH]; intros acc.
  - cbn. now rewrite append_nil_r.
  - cbn [utils.pdf_pages_loop Spec.page_fragments].
    destruct (page_extract_text page) as [fragment | e]; [| reflexivity].
    destruct (py_not fragment) eqn:E; rewrite IH;
      destruct (Spec.page_fragments rest) as [fragments | e]; try reflexivity;
      cbn [filter]; rewrite E; cbn [negb]; [reflexivity |].
    f_equal. rewrite append_assoc. f_equal.
    destruct (filter (fun f => negb (py_not f)) fragments) as [|y l] eqn:F.
    + cbn [map String.concat]. now rewrite append_nil_r.
    + change (map (fun f => f ++ nl) (fragment :: y :: l))
        with ((fragment ++ nl) :: map (fun f => f ++ nl) (y :: l)).
      reflexivity.
Qed.

(** C5. For every PDF byte stream, [extract_text_from_pdf] is the
    extraction the specification describes: the page fragments that are
    not empty, in page order, joined by a newline, and the result
    trimmed; the empty string when parsing the document, or extracting a
    page, raises.  The text returned is trimmed: stripping it again
    changes nothing. *)
Theorem extract_text_from_pdf_meets_spec `{P : Platform} (stream : list byte) :
  utils.extract_text_from_pdf stream = Spec.extract_pdf stream
  /\ strip (utils.extract_text_from_pdf stream) = utils.extract_text_from_pdf stream.
Proof.
  assert (H : utils.extract_text_from_pdf stream = Spec.extract_pdf stream).
  { unfold utils.extract_text_from_pdf, Spec.extract_pdf.
    destruct (PdfReader stream) as [pages | e]; [| reflexivity].
    rewrite pdf_pages_loop_fragments.
    destruct (Spec.page_fragments pages) as [fragments | e]; [| reflexivity].
    unfold Spec.pdf_text. cbn [append]. apply strip_concat_lines. }
  split; [exact H |].
  rewrite H. unfold Spec.extract_pdf.
  destruct (PdfReader stream) as [pages | e]; [| reflexivity].
  destruct (Spec.page_fragments pages) as [fragments | e]; [| reflexivity].
  apply strip_idempotent.
Qed.

(** ** The example store: reading *)

Lemma insert_desc_perm (p : TrainingPair) (l : list TrainingPair) :
  Permutation (crud.insert_desc p l) (p :: l).
Proof.
  induction l as [|q l IH]; cbn [crud.insert_desc]; [reflexivity |].
  destruct (id q <=? id p)%Z; [reflexivity |].
  rewrite IH. apply perm_swap.
Qed.

Lemma order_by_id_desc_perm (l : list TrainingPair) :
  Permutation (crud.order_by_id_desc l) l.
Proof.
  induction l as [|p l IH]; [reflexivity |].
  unfold crud.order_by_id_desc in *. cbn [fold_right].
  rewrite insert_desc_perm. now constructor.
Qed.

Lemma insert_desc_sorted (p : TrainingPair) (l : list TrainingPair) :
  StronglySorted Spec.newer_first l -> StronglySorted Spec.newer_first (crud.insert_desc p l).
Proof.
  induction 1 as [|q l Hs IH Hq]; cbn [crud.insert_desc].
  - repeat constructor.
  - destruct (Z.leb_spec (id q) (id p)) as [Hle | Hlt].
    + constructor; [now constructor |].
      constructor; [exact Hle |].
      eapply Forall_impl; [| exact Hq]. unfold Spec.newer_first. intros x Hx. lia.
    + constructor; [exact IH |].
      eapply Permutation_Forall; [symmetry; apply insert_desc_perm |].
      constructor; [unfold Spec.newer_first; lia | exact Hq].
Qed.

Lemma order_by_id_desc_sorted (l : list TrainingPair) :
  StronglySorted Spec.newer_first (crud.order_by_id_desc l).
Proof.
  induction l as [|p l IH]; [constructor |].
  apply insert_desc_sorted. exact IH.
Qed.

Lemma firstn_sorted (n : nat) (l : list TrainingPair) :
  StronglySorted Spec.newer_first l -> StronglySorted Spec.newer_first (firstn n l).
Proof.
  intros Hs. revert n. induction Hs as [|q l Hs IH Hq]; intros [|n]; cbn [firstn];
    try constructor.
  - apply IH.
  - rewrite Forall_forall in *. intros x Hx. apply Hq.
    rewrite <- (firstn_skipn n l). apply in_or_app. now left.
Qed.

Lemma sorted_app_newer (a b : list TrainingPair) :
  StronglySorted Spec.newer_first (a ++ b)%list ->
  forall x y, In x a -> In y b -> (id y <= id x)%Z.
Proof.
  induction a as [|q a IH]; cbn [app]; intros Hs x y Hx Hy; [contradiction |].
  apply StronglySorted_inv in Hs as [Hs Hq].
  destruct Hx as [-> | Hx].
  - rewrite Forall_forall in Hq. apply Hq. apply in_or_app. now right.
  - now apply IH.
Qed.

(** The rows [get_training_examples] reads when the storage answers. *)
Lemma get_training_examples_reads (limit : Z) (w : World) :
  crud.get_training_examples limit w
  = (Ok (match storage_error (db w) with
         | Some _ => []
         | None => crud.sql_limit limit (crud.order_by_id_desc (rows (db w)))
         end), w).
Proof.
  unfold crud.get_training_examples, crud.query_recent. run_monad.
  destruct (storage_error (db w)); reflexivity.
Qed.

(** C4. For every limit [N >= 0] and every state of the store,
    [get_training_examples N] returns without raising and leaves the
    world as it was; the examples returned are at most [N], stand in
    descending identity order, are rows of the store, and no row left out
    is newer than a row returned; there are [min N (number of rows)] of
    them when the storage answers, and none when the store is empty or
    the read fails. *)
Theorem get_training_examples_recent (limit : Z) (w : World) :
  (0 <= limit)%Z ->
  exists examples,
    crud.get_training_examples limit w = (Ok examples, w)
    /\ (Z.of_nat (List.length examples) <= limit)%Z
    /\ StronglySorted Spec.newer_first examples
    /\ incl examples (rows (db w))
    /\ (forall r e, In r (rows (db w)) -> ~ In r examples -> In e examples ->
        (id r <= id e)%Z)
    /\ (storage_error (db w) = None ->
        List.length examples = Nat.min (Z.to_nat limit) (List.length (rows (db w))))
    /\ (rows (db w) = [] -> examples = [])
    /\ (storage_error (db w) <> None -> examples = []).
Proof.
  intros Hlimit. rewrite get_training_examples_reads. eexists. split; [reflexivity |].
  destruct (storage_error (db w)) as [e |].
  - repeat split; cbn; try lia; try constructor; try easy.
  - unfold crud.sql_limit. destruct (Z.ltb_spec limit 0) as [Hneg | _]; [lia |].
    set (sorted := crud.order_by_id_desc (rows (db w))).
    assert (Hperm : Permutation sorted (rows (db w))) by apply order_by_id_desc_perm.
    assert (Hsorted : StronglySorted Spec.newer_first sorted) by apply order_by_id_desc_sorted.
    repeat split.
    + pose proof (firstn_le_length (Z.to_nat limit) sorted). lia.
    + now apply firstn_sorted.
    + intros x Hx. eapply Permutation_in; [exact Hperm |].
      rewrite <- (firstn_skipn (Z.to_nat limit) sorted). apply in_or_app. now left.
    + intros r e Hr Hout He.
      apply (Permutation_in _ (Permutation_sym Hperm)) in Hr.
      rewrite <- (firstn_skipn (Z.to_nat limit) sorted) in Hr, Hsorted.
      apply in_app_or in Hr as [Hr | Hr]; [contradiction |].
      exact (sorted_app_newer _ _ Hsorted e r He Hr).
    + intros _. rewrite length_firstn. now rewrite (Permutation_length Hperm).
    + intros Hempty. subst sorted. rewrite Hempty. cbn. now rewrite firstn_nil.
    + intros Hfail. now destruct Hfail.
Qed.

Lemma get_training_examples_recent_witness :
  let w := {| db := {| rows := [Fixtures.pair 1 "a" JNull; Fixtures.pair 3 "c" JNull;
                               Fixtures.pair 2 "b" JNull];
                       pending := []; storage_error := None |};
              trace := [] |} in
  (0 <= 2)%Z
  /\ crud.get_training_examples 2 w
     = (Ok [Fixtures.pair 3 "c" JNull; Fixtures.pair 2 "b" JNull], w).
Proof.
  intros w. assert (Hlimit : (0 <= 2)%Z) by lia. split; [exact Hlimit |].
  destruct (get_training_examples_recent 2 w Hlimit) as [examples [Hrun _]].
  rewrite Hrun. apply f_equal2; [| reflexivity]. vm_compute in Hrun.
  now inversion Hrun.
Defined.

(** ** The prompt builder *)

Lemma fold_left_appends {A} (f : list string -> A -> list string)
    (g : A -> list string) :
  (forall acc x, f acc x = (acc ++ g x)%list) ->
  forall l acc, fold_left f l acc = (acc ++ flat_map g l)%list.
Proof.
  intros Hf. induction l as [|x l IH]; intros acc; cbn [fold_left flat_map].
  - now rewrite app_nil_r.
  - now rewrite IH, Hf, <- app_assoc.
Qed.

Lemma blocks_of_enumerate `{P : Platform} (start : nat) (examples : list TrainingPair) :
  flat_map (fun '(i, example) => Spec.example_block (i + 1) example)
    (combine (seq start (List.length examples)) examples)
  = Spec.example_blocks (start + 1) examples.
Proof.
  revert start. induction examples as [|example rest IH]; intros start; [reflexivity |].
  cbn [List.length seq combine flat_map Spec.example_blocks].
  rewrite IH. now replace (S start + 1) with (S (start + 1)) by lia.
Qed.

(** The list the code builds by appending is the template's list of
    sections. *)
Lemma prompt_parts_sections `{P : Platform}
    (input_text : string) (examples : list TrainingPair) :
  utils.prompt_parts input_text examples = Spec.prompt_sections input_text examples.
Proof.
  unfold utils.prompt_parts, Spec.prompt_sections, Spec.input_section, utils.append.
  destruct examples as [|example rest].
  - rewrite <- !app_assoc. reflexivity.
  - rewrite (fold_left_appends _
               (fun '(i, example) => Spec.example_block (i + 1) example)).
    + unfold utils.enumerate. rewrite blocks_of_enumerate.
      rewrite <- !app_assoc. reflexivity.
    + intros acc [i ex]. unfold Spec.example_block. rewrite <- !app_assoc. reflexivity.
Qed.

Lemma prefix_app (p s : string) : String.prefix p (p ++ s) = true.
Proof.
  induction p as [|c p IH]; cbn [append String.prefix].
  - now destruct s.
  - destruct (ascii_dec c c) as [_ | Hne]; [exact IH | now destruct Hne].
Qed.

Lemma is_example_label_label (rest : string) :
  Spec.is_example_label (nl ++ "Example " ++ rest) = true.
Proof.
  unfold Spec.is_example_label, startswith.
  exact (prefix_app (nl ++ "Example ") rest).
Qed.

(** A part that does not start with a newline opens no example block. *)
Lemma is_example_label_first_char (c : ascii) (rest : string) :
  Ascii.eqb c (ascii_of_nat 10) = false ->
  Spec.is_example_label (String c rest) = false.
Proof.
  intros Hc. unfold Spec.is_example_label, startswith. cbn [nl append String.prefix].
  destruct (ascii_dec (ascii_of_nat 10) c) as [<- | _]; [| reflexivity].
  now rewrite Ascii.eqb_refl in Hc.
Qed.

Lemma label_of_block `{P : Platform} (index : nat) (example : TrainingPair) :
  filter Spec.is_example_label (Spec.example_block index example)
  = [nl ++ "Example " ++ str_of_nat index ++ ":"].
Proof.
  unfold Spec.example_block. cbn [filter].
  rewrite is_example_label_label.
  change (Spec.is_example_label "Input Text:") with false.
  change (Spec.is_example_label "Output JSON:") with false.
  cbn [append].
  rewrite !is_example_label_first_char by reflexivity.
  reflexivity.
Qed.

Lemma labels_of_blocks `{P : Platform} (start : nat) (examples : list TrainingPair) :
  filter Spec.is_example_label (Spec.example_blocks start examples)
  = map (fun i => nl ++ "Example " ++ str_of_nat i ++ ":")
      (seq start (List.length examples)).
Proof.
  revert start. induction examples as [|example rest IH]; intros start; [reflexivity |].
  cbn [Spec.example_blocks List.length seq map].
  rewrite filter_app, IH, label_of_block. reflexivity.
Qed.

Lemma labels_of_sections `{P : Platform}
    (input_text : string) (examples : list TrainingPair) :
  filter Spec.is_example_label (Spec.prompt_sections input_text examples)
  = map (fun i => nl ++ "Example " ++ str_of_nat i ++ ":")
      (seq 1 (List.length examples)).
Proof.
  unfold Spec.prompt_sections. rewrite !filter_app.
  change (filter Spec.is_example_label utils.PROMPT_HEADER) with (@nil string).
  change (filter Spec.is_example_label (Spec.input_section input_text))
    with (@nil string).
  rewrite app_nil_r. cbn [app].
  destruct examples as [|example rest]; [reflexivity |].
  apply labels_of_blocks.
Qed.

Lemma block_position `{P : Platform} (examples : list TrainingPair) :
  forall (start i : nat) (example : TrainingPair) (rest : list string),
    nth_error examples i = Some example ->
    firstn 5 (skipn (5 * i) (Spec.example_blocks start examples ++ rest)%list)
    = Spec.example_block (start + i) example.
Proof.
  induction examples as [|first others IH]; intros start i example rest Hnth.
  - destruct i; discriminate.
  - destruct i as [|i].
    + injection Hnth as ->. rewrite Nat.add_0_r. reflexivity.
    + cbn [nth_error] in Hnth.
      replace (5 * S i) with (5 * i + 5) by lia.
      rewrite <- skipn_skipn. cbn [Spec.example_blocks].
      change (skipn 5 ((Spec.example_block start first
                        ++ Spec.example_blocks (S start) others) ++ rest)%list)
        with (Spec.example_blocks (S start) others ++ rest)%list.
      rewrite (IH (S start) i example rest Hnth).
      now replace (S start + i) with (start + S i) by lia.
Qed.

Lemma join_app (sep : string) (a b : list string) :
  a <> [] -> b <> [] ->
  join sep (a ++ b) = join sep a ++ sep ++ join sep b.
Proof.
  unfold join. intros Ha Hb. induction a as [|x a IH]; [contradiction |].
  destruct a as [|y a].
  - destruct b as [|z b]; [contradiction | reflexivity].
  - change (String.concat sep ((x :: y :: a) ++ b)%list)
      with (x ++ sep ++ String.concat sep ((y :: a) ++ b)%list).
    rewrite IH by discriminate.
    change (String.concat sep (x :: y :: a)) with (x ++ sep ++ String.concat sep (y :: a)).
    now rewrite !append_assoc.
Qed.

(** A run of parts shows in the joined string as the join of the run. *)
Lemma join_infix (sep : string) (a b c : list string) :
  contains (join sep (a ++ b ++ c)%list) (join sep b).
Proof.
  destruct b as [|x b].
  - exists (join sep (a ++ c)%list), "". cbn. now rewrite append_nil_r.
  - destruct a as [|y a], c as [|z c].
    + exists "", "". cbn [app]. now rewrite app_nil_r, append_nil_r.
    + exists "", (sep ++ join sep (z :: c)).
      exact (join_app sep (x :: b) (z :: c) ltac:(discriminate) ltac:(discriminate)).
    + exists (join sep (y :: a) ++ sep), "". rewrite app_nil_r, append_nil_r.
      rewrite join_app by discriminate. now rewrite append_assoc.
    + exists (join sep (y :: a) ++ sep), (sep ++ join sep (z :: c)).
      rewrite join_app by discriminate.
      rewrite (join_app sep (x :: b) (z :: c)) by discriminate.
      now rewrite !append_assoc.
Qed.

(** C6. For every input text and example list, the prompt is the
    template's sections joined by newlines, and:
    - with no example, the parts hold the explanatory line (so the prompt
      contains it) and none opens an example block;
    - with [k] examples, the parts that open an example block are exactly
      the labels "\nExample 1:" to "\nExample k:", in this order;
    - the block of the example at position [i] (from 0) stands at parts
      [5 + 5 i] to [9 + 5 i]: the label with index [i + 1], the example's
      text verbatim between fences, and its annotation dumped with indent
      2 between json fences; the prompt contains the block joined by
      newlines. *)
Theorem prompt_follows_template `{P : Platform}
    (input_text : string) (examples : list TrainingPair) :
  utils.full_prompt input_text examples
  = join nl (Spec.prompt_sections input_text examples)
  /\ (examples = [] ->
      In utils.NO_EXAMPLES_LINE (utils.prompt_parts input_text examples)
      /\ contains (utils.full_prompt input_text examples) utils.NO_EXAMPLES_LINE
      /\ filter Spec.is_example_label (utils.prompt_parts input_text examples) = [])
  /\ filter Spec.is_example_label (utils.prompt_parts input_text examples)
     = map (fun i => nl ++ "Example " ++ str_of_nat i ++ ":")
         (seq 1 (List.length examples))
  /\ (forall i example,
        nth_error examples i = Some example ->
        firstn 5 (skipn (5 + 5 * i) (utils.prompt_parts input_text examples))
        = Spec.example_block (i + 1) example
        /\ contains (utils.full_prompt input_text examples)
             (join nl (Spec.example_block (i + 1) example))).
Proof.
  unfold utils.full_prompt. rewrite prompt_parts_sections.
  split; [reflexivity |]. split; [| split].
  - intros ->. split; [| split].
    + cbn. tauto.
    + apply (join_infix nl utils.PROMPT_HEADER [utils.NO_EXAMPLES_LINE]
               (Spec.input_section input_text)).
    + reflexivity.
  - apply labels_of_sections.
  - intros i example Hnth.
    assert (Hblock :
              firstn 5 (skipn (5 + 5 * i) (Spec.prompt_sections input_text examples))
              = Spec.example_block (i + 1) example).
    { unfold Spec.prompt_sections. destruct examples as [|first others].
      - destruct i; discriminate.
      - change (skipn (5 + 5 * i)
                  (utils.PROMPT_HEADER
                   ++ Spec.example_blocks 1 (first :: others)
                   ++ Spec.input_section input_text)%list)
          with (skipn (5 * i)
                  (Spec.example_blocks 1 (first :: others)
                   ++ Spec.input_section input_text)%list).
        rewrite (block_position (first :: others) 1 i example _ Hnth).
        now rewrite Nat.add_comm. }
    split; [exact Hblock |].
    rewrite <- Hblock.
    rewrite <- (firstn_skipn (5 + 5 * i) (Spec.prompt_sections input_text examples))
      at 1.
    rewrite <- (firstn_skipn 5
                  (skipn (5 + 5 * i) (Spec.prompt_sections input_text examples)))
      at 1.
    apply join_infix.
Qed.

Lemma prompt_follows_template_witness :
  let P := Fixtures.platform (Some "key") "" in
  let examples := [Fixtures.pair 2 "Invoice 7" (JInt 7);
                   Fixtures.pair 1 "Memo" (JList [JInt 1])] in
  nth_error examples 1 = Some (Fixtures.pair 1 "Memo" (JList [JInt 1]))
  /\ contains (utils.full_prompt "Invoice 42" examples)
       (nl ++ "Example 2:" ++ nl ++ "Input Text:" ++ nl
        ++ "```" ++ nl ++ "Memo" ++ nl ++ "```" ++ nl
        ++ "Output JSON:" ++ nl
        ++ "```json" ++ nl ++ "[" ++ nl ++ "  1" ++ nl ++ "]" ++ nl ++ "```").
Proof.
  intros P examples. split; [reflexivity |].
  exact (proj2 (proj2 (proj2 (proj2 (prompt_follows_template "Invoice 42" examples)))
                  1 (Fixtures.pair 1 "Memo" (JList [JInt 1])) eq_refl)).
Defined.

(** ** The generation client *)

(** With a credential, [generate_json_with_gemini] sends one request, with
    the prompt built from its arguments, and turns whatever comes back
    into a value: it never raises. *)
Lemma generate_configured `{P : Platform}
    (input_text : string) (examples : list TrainingPair) (model_name : string)
    (w : World) :
  utils.api_key_configured = true ->
  utils.generate_json_with_gemini input_text examples model_name w
  = (Ok (match generate_content_async model_name
                 (utils.full_prompt input_text examples) with
         | Raise e =>
             JDict [("error",
                     JStr ("An error occurred while communicating with the AI service: "
                           ++ str_exn e))]
         | Ok response =>
             match candidates response with
             | [] =>
                 JDict [("error",
                         JStr ("Content generation blocked. Feedback: "
                               ++ match prompt_feedback response with
                                  | Some f => f
                                  | None => "No feedback available"
                                  end))]
             | _ :: _ =>
                 match text response with
                 | Ok generated_content => utils.parse_generated generated_content
                 | Raise e =>
                     JDict [("error",
                             JStr ("An error occurred while communicating with the AI service: "
                                   ++ str_exn e))]
                 end
             end
         end),
     {| db := db w;
        trace := (trace w ++ [GenerateContent model_name
                                (utils.full_prompt input_text examples)])%list |}).
Proof.
  intros Hkey. unfold utils.generate_json_with_gemini. rewrite Hkey. cbn [negb].
  run_monad.
  destruct (generate_content_async model_name (utils.full_prompt input_text examples))
    as [response | e]; [| reflexivity].
  destruct (candidates response); [reflexivity |].
  destruct (text response); reflexivity.
Qed.

Lemma generate_never_raises `{P : Platform}
    (input_text : string) (examples : list TrainingPair) (model_name : string)
    (w : World) :
  exists v w',
    utils.generate_json_with_gemini input_text examples model_name w = (Ok v, w')
    /\ db w' = db w.
Proof.
  destruct utils.api_key_configured eqn:Hkey.
  - rewrite (generate_configured _ _ _ _ Hkey). do 2 eexists. split; reflexivity.
  - unfold utils.generate_json_with_gemini. rewrite Hkey. do 2 eexists.
    split; reflexivity.
Qed.

(** *** Lengths of stripped and sliced strings *)

Lemma lstrip_length (s : string) : String.length (lstrip s) <= String.length s.
Proof.
  induction s as [|c s IH]; cbn [lstrip String.length]; [lia |].
  destruct (is_space c); cbn [String.length]; lia.
Qed.

Lemma rstrip_length (s : string) : String.length (rstrip s) <= String.length s.
Proof.
  induction s as [|c s IH]; [cbn; lia |].
  rewrite rstrip_cons. destruct (rstrip s); [destruct (is_space c) |];
    cbn [String.length] in *; lia.
Qed.

Lemma strip_length (s : string) : String.length (strip s) <= String.length s.
Proof.
  unfold strip. pose proof (rstrip_length (lstrip s)). pose proof (lstrip_length s). lia.
Qed.

Lemma drop_length (n : nat) (s : string) :
  String.length (drop n s) = String.length s - n.
Proof.
  revert s. induction n as [|n IH]; intros [|c s]; cbn [drop String.length];
    try lia. apply IH.
Qed.

Lemma take_length (n : nat) (s : string) :
  String.length (take n s) = Nat.min n (String.length s).
Proof.
  revert s. induction n as [|n IH]; intros [|c s]; cbn [take String.length Nat.min];
    try lia. now rewrite IH.
Qed.

Lemma prefix_length (p s : string) :
  String.prefix p s = true -> String.length p <= String.length s.
Proof.
  revert s. induction p as [|c p IH]; intros s Hp; [cbn; lia |].
  destruct s as [|d s]; [discriminate |]. cbn [String.prefix] in Hp.
  destruct (ascii_dec c d); [| discriminate].
  apply IH in Hp. cbn [String.length]. lia.
Qed.

Lemma endswith_length (s p : string) :
  endswith s p = true -> String.length p <= String.length s.
Proof.
  induction s as [|c s IH]; cbn [endswith]; intros H.
  - rewrite orb_false_r in H. apply String.eqb_eq in H. subst. lia.
  - apply orb_true_iff in H as [H | H].
    + apply String.eqb_eq in H. subst. lia.
    + apply IH in H. cbn [String.length]. lia.
Qed.

(** *** Fence removal and the raw response *)

(** A completion without fence markers is left as received. *)
Lemma remove_fences_verbatim `{P : Platform} (completion : string) :
  startswith (strip completion) "```json" = false ->
  endswith (strip completion) "```" = false ->
  utils.remove_fences completion = completion.
Proof.
  intros Hopen Hclose. unfold utils.remove_fences. now rewrite Hopen, Hclose.
Qed.

(** A completion with a fence marker is shortened. *)
Lemma remove_fences_shortens `{P : Platform} (completion : string) :
  startswith (strip completion) "```json" = true
  \/ endswith (strip completion) "```" = true ->
  String.length (utils.remove_fences completion) < String.length completion.
Proof.
  unfold utils.remove_fences. intros Hfence.
  pose proof (strip_length completion) as Hs.
  destruct (startswith (strip completion) "```json") eqn:Hopen.
  - apply prefix_length in Hopen. cbn [String.length] in Hopen.
    pose proof (drop_length 7 (strip completion)) as Hd.
    destruct (endswith (strip (drop 7 (strip completion))) "```").
    + unfold drop_last. rewrite take_length.
      pose proof (strip_length (drop 7 (strip completion))). lia.
    + lia.
  - destruct Hfence as [Hfence | Hclose]; [discriminate |]. rewrite Hclose.
    apply endswith_length in Hclose. cbn [String.length] in Hclose.
    unfold drop_last. rewrite take_length. lia.
Qed.

(** C2, as the code has it.  When the completion does not parse, the
    payload returned is tagged "Failed to parse JSON from AI response."
    and its [raw_response] is the completion after the two fence-removal
    assignments.  It is the completion as received when no fence marker
    was found; it differs from it whenever one was found, the marker and
    the surrounding whitespace having been cut off. *)
Theorem generate_raw_response_after_fence_removal `{P : Platform}
    (input_text : string) (examples : list TrainingPair) (model_name : string)
    (w : World) (response : GenerateContentResponse) (completion m : string) :
  utils.api_key_configured = true ->
  generate_content_async model_name (utils.full_prompt input_text examples)
  = Ok response ->
  candidates response <> [] ->
  text response = Ok completion ->
  json_loads (strip (utils.remove_fences completion)) = Raise (JSONDecodeError m) ->
  fst (utils.generate_json_with_gemini input_text examples model_name w)
  = Ok (JDict [("error", JStr "Failed to parse JSON from AI response.");
               ("raw_response", JStr (utils.remove_fences completion))])
  /\ (startswith (strip completion) "```json" = false ->
      endswith (strip completion) "```" = false ->
      utils.remove_fences completion = completion)
  /\ (startswith (strip completion) "```json" = true
      \/ endswith (strip completion) "```" = true ->
      utils.remove_fences completion <> completion).
Proof.
  intros Hkey Hresponse Hcandidates Htext Hloads.
  split; [| split].
  - rewrite (generate_configured _ _ _ _ Hkey), Hresponse. cbn [fst].
    destruct (candidates response); [contradiction |].
    rewrite Htext. unfold utils.parse_generated. now rewrite Hloads.
  - apply remove_fences_verbatim.
  - intros Hfence Heq. apply remove_fences_shortens in Hfence.
    rewrite Heq in Hfence. lia.
Qed.

Lemma generate_raw_response_after_fence_removal_witness :
  let completion := "```json" ++ nl ++ "[1, 2," ++ nl ++ "```" in
  let P := Fixtures.platform (Some "key") completion in
  fst (utils.generate_json_with_gemini "Invoice 42" [] utils.DEFAULT_MODEL
         Fixtures.start)
  = Ok (JDict [("error", JStr "Failed to parse JSON from AI response.");
               ("raw_response", JStr ("[1, 2," ++ nl))])
  /\ "[1, 2," ++ nl <> completion.
Proof.
  intros completion P.
  assert (Hkey : utils.api_key_configured = true) by reflexivity.
  assert (Hcandidates : [completion] <> []) by discriminate.
  assert (Hloads : json_loads (strip (utils.remove_fences completion))
                   = Raise (JSONDecodeError "Expecting value")) by reflexivity.
  destruct (generate_raw_response_after_fence_removal
              "Invoice 42" [] utils.DEFAULT_MODEL Fixtures.start
              {| candidates := [completion]; prompt_feedback := None;
                 text := Ok completion |}
              completion "Expecting value"
              Hkey eq_refl Hcandidates eq_refl Hloads)
    as [Hpayload [_ Hdiffers]].
  split; [exact Hpayload |].
  apply Hdiffers. left. reflexivity.
Defined.

(** ** The query endpoint *)

Lemma yields_no_text_false `{P : Platform} (t : string) : main.yields_no_text t = false.
Proof. unfold main.yields_no_text. now destruct t. Qed.

(** Step 1 passes on whatever text the extractor returned. *)
Lemma query_extract_ok `{P : Platform} (doc_file : UploadFile) (w w1 : World)
    (input_text : string) :
  utils.extract_text_from_upload doc_file w = (Ok input_text, w1) ->
  main.query_extract doc_file w = (Ok input_text, w1).
Proof.
  intros Hextract. unfold main.query_extract. run_monad.
  now rewrite Hextract, yields_no_text_false.
Qed.

(** Steps 2 and 3, by what the generation utility returns. *)
Lemma query_generate_outcome `{P : Platform} (input_text : string) (w w' : World)
    (examples : list TrainingPair) (v : json) :
  crud.get_training_examples 5 w = (Ok examples, w) ->
  utils.generate_json_with_gemini input_text examples utils.DEFAULT_MODEL w
  = (Ok v, w') ->
  main.query_generate input_text w = (Spec.query_answer v, w').
Proof.
  intros Hexamples Hgenerate. unfold main.query_generate. run_monad.
  rewrite Hexamples, Hgenerate. unfold Spec.query_answer, main.new_JSONResponse.
  destruct v; try (destruct (JSONResponse_render_error _); reflexivity).
  destruct (dict_get "error" items); [reflexivity |].
  destruct (JSONResponse_render_error _); reflexivity.
Qed.

(** The answer to a generated value is a success or a 500 error. *)
Lemma query_answer_status `{P : Platform} (v : json) (code : Z) (detail : json) :
  Spec.query_answer v = Raise (HTTPException code detail) -> code = 500%Z.
Proof.
  unfold Spec.query_answer.
  destruct v; try (destruct (JSONResponse_render_error _); now intros [= <- _]).
  destruct (dict_get "error" items); [now intros [= <- _] |].
  destruct (JSONResponse_render_error _); now intros [= <- _].
Qed.

(** Past step 1, the endpoint answers 200 or 500. *)
Lemma query_generate_status `{P : Platform} (input_text : string) (w w' : World)
    (code : Z) (detail : json) :
  main.query_generate input_text w = (Raise (HTTPException code detail), w') ->
  code = 500%Z.
Proof.
  destruct (generate_never_raises input_text
              (match storage_error (db w) with
               | Some _ => []
               | None => crud.sql_limit 5 (crud.order_by_id_desc (rows (db w)))
               end) utils.DEFAULT_MODEL w) as [v [w2 [Hgenerate _]]].
  rewrite (query_generate_outcome input_text w w2 _ v
             (get_training_examples_reads 5 w) Hgenerate).
  intros [= Hanswer _]. exact (query_answer_status v code detail Hanswer).
Qed.

(** C1, as the code has it.  When the extractor returns the empty string
    for the query document, [process_query] does not answer 400: the
    test guarding that answer never holds of a string, so the handler goes
    on to retrieve the examples and to generate from the empty text, and
    whatever error it then reports carries status 500. *)
Theorem process_query_empty_text_reaches_generation `{P : Platform}
    (doc_file : UploadFile) (w w1 : World) :
  utils.extract_text_from_upload doc_file w = (Ok "", w1) ->
  main.process_query doc_file w = main.query_generate "" w1
  /\ (forall code detail w',
        main.process_query doc_file w = (Raise (HTTPException code detail), w') ->
        code = 500%Z).
Proof.
  intros Hextract.
  assert (Hrun : main.process_query doc_file w = main.query_generate "" w1).
  { unfold main.process_query, bind. now rewrite (query_extract_ok _ _ _ _ Hextract). }
  split; [exact Hrun |].
  intros code detail w'. rewrite Hrun. apply query_generate_status.
Qed.

Lemma process_query_empty_text_reaches_generation_witness :
  let P := Fixtures.platform (Some "key") "[1]" in
  let w1 := {| db := Fixtures.empty_session; trace := [FileRead (Some "scan.pdf")] |} in
  utils.extract_text_from_upload Fixtures.corrupt_pdf Fixtures.start = (Ok "", w1)
  /\ main.process_query Fixtures.corrupt_pdf Fixtures.start
     = (Ok {| status_code := 200; content := JList [JInt 1] |},
        {| db := Fixtures.empty_session;
           trace := [FileRead (Some "scan.pdf");
                     GenerateContent utils.DEFAULT_MODEL (utils.full_prompt "" [])] |}).
Proof.
  intros P w1.
  assert (Hextract :
            utils.extract_text_from_upload Fixtures.corrupt_pdf Fixtures.start
            = (Ok "", w1)) by reflexivity.
  split; [exact Hextract |].
  rewrite (proj1 (process_query_empty_text_reaches_generation
                    Fixtures.corrupt_pdf Fixtures.start w1 Hextract)).
  reflexivity.
Defined.

(** With a credential, a response that has a candidate and a text is
    answered with what [parse_generated] makes of the text. *)
Lemma generate_completion `{P : Platform}
    (input_text : string) (examples : list TrainingPair) (model_name : string)
    (w : World) (response : GenerateContentResponse) (completion : string) :
  utils.api_key_configured = true ->
  generate_content_async model_name (utils.full_prompt input_text examples)
  = Ok response ->
  candidates response <> [] ->
  text response = Ok completion ->
  utils.generate_json_with_gemini input_text examples model_name w
  = (Ok (utils.parse_generated completion),
     {| db := db w;
        trace := (trace w ++ [GenerateContent model_name
                                (utils.full_prompt input_text examples)])%list |}).
Proof.
  intros Hkey Hresponse Hcandidates Htext.
  rewrite (generate_configured _ _ _ _ Hkey), Hresponse.
  destruct (candidates response); [contradiction |].
  now rewrite Htext.
Qed.

(** C10, as the code has it.  When the completion of the generation
    service parses to an object with a top-level key "error",
    [process_query] does not return it: it raises the 500 error that it
    raises for the error payloads of the generation utility.  The detail of
    that error is the value under the key, unless the value is null: the
    exception then carries the phrase of the status, "Internal Server
    Error". *)
Theorem process_query_error_key_is_failure `{P : Platform}
    (doc_file : UploadFile) (w w1 : World) (input_text : string)
    (examples : list TrainingPair) (response : GenerateContentResponse)
    (completion : string) (items : list (string * json)) (err : json) :
  utils.extract_text_from_upload doc_file w = (Ok input_text, w1) ->
  crud.get_training_examples 5 w1 = (Ok examples, w1) ->
  utils.api_key_configured = true ->
  generate_content_async utils.DEFAULT_MODEL (utils.full_prompt input_text examples)
  = Ok response ->
  candidates response <> [] ->
  text response = Ok completion ->
  json_loads (strip (utils.remove_fences completion)) = Ok (JDict items) ->
  dict_get "error" items = Some err ->
  main.process_query doc_file w
  = (Raise (HTTPException 500
              (match err with
               | JNull => JStr "Internal Server Error"
               | _ => err
               end)),
     {| db := db w1;
        trace := (trace w1
                  ++ [GenerateContent utils.DEFAULT_MODEL
                        (utils.full_prompt input_text examples)])%list |}).
Proof.
  intros Hextract Hexamples Hkey Hresponse Hcandidates Htext Hloads Herr.
  unfold main.process_query, bind. rewrite (query_extract_ok _ _ _ _ Hextract).
  rewrite (query_generate_outcome input_text w1 _ examples _ Hexamples
             (generate_completion _ _ _ _ _ _ Hkey Hresponse Hcandidates Htext)).
  unfold utils.parse_generated. rewrite Hloads.
  unfold Spec.query_answer. now rewrite Herr.
Qed.

Lemma process_query_error_key_is_failure_witness :
  let completion := "{" ++ dq ++ "error" ++ dq ++ ": 404, "
                    ++ dq ++ "path" ++ dq ++ ": " ++ dq ++ "/index" ++ dq ++ "}" in
  let P := Fixtures.platform (Some "key") completion in
  MiniJson.loads completion
  = Ok (JDict [("error", JInt 404); ("path", JStr "/index")])
  /\ main.process_query Fixtures.sample_pdf Fixtures.start
     = (Raise (HTTPException 500 (JInt 404)),
        {| db := Fixtures.empty_session;
           trace := [FileRead (Some "invoice.pdf");
                     GenerateContent utils.DEFAULT_MODEL
                       (utils.full_prompt
                          ("Invoice 42" ++ nl ++ "Total: 10") [])] |}).
Proof.
  intros completion P. split; [reflexivity |].
  set (w1 := {| db := Fixtures.empty_session;
                trace := [FileRead (Some "invoice.pdf")] |}).
  set (input_text := "Invoice 42" ++ nl ++ "Total: 10").
  assert (Hextract : utils.extract_text_from_upload Fixtures.sample_pdf Fixtures.start
                     = (Ok input_text, w1)) by reflexivity.
  assert (Hexamples : crud.get_training_examples 5 w1 = (Ok [], w1)) by reflexivity.
  assert (Hkey : utils.api_key_configured = true) by reflexivity.
  assert (Hcandidates : [completion] <> []) by discriminate.
  assert (Hloads : json_loads (strip (utils.remove_fences completion))
                   = Ok (JDict [("error", JInt 404); ("path", JStr "/index")]))
    by reflexivity.
  exact (process_query_error_key_is_failure
           Fixtures.sample_pdf Fixtures.start w1 input_text []
           {| candidates := [completion]; prompt_feedback := None;
              text := Ok completion |}
           completion [("error", JInt 404); ("path", JStr "/index")] (JInt 404)
           Hextract Hexamples Hkey eq_refl Hcandidates eq_refl Hloads eq_refl).
Defined.

(** C10, as stated, fails when the value under the key is null: the
    completion [{"error": null}] parses to an object whose key "error"
    holds null, and the error raised carries the detail "Internal Server
    Error", not that value. *)
Lemma process_query_null_error_detail :
  let completion := "{" ++ dq ++ "error" ++ dq ++ ": null}" in
  let P := Fixtures.platform (Some "key") completion in
  MiniJson.loads completion = Ok (JDict [("error", JNull)])
  /\ dict_get "error" [("error", JNull)] = Some JNull
  /\ main.process_query Fixtures.sample_pdf Fixtures.start
     = (Raise (HTTPException 500 (JStr "Internal Server Error")),
        {| db := Fixtures.empty_session;
           trace := [FileRead (Some "invoice.pdf");
                     GenerateContent utils.DEFAULT_MODEL
                       (utils.full_prompt
                          ("Invoice 42" ++ nl ++ "Total: 10") [])] |})
  /\ JStr "Internal Server Error" <> JNull.
Proof.
  intros completion P.
  split; [reflexivity | split; [reflexivity | split; [reflexivity | discriminate]]].
Qed.

(** ** The example store: writing, and the upload endpoint *)

Lemma max_key_bound (k : Z) (ks : list Z) (x : Z) :
  In x (k :: ks) -> (x <= fold_right Z.max k ks)%Z.
Proof.
  induction ks as [|y ks IH]; cbn [fold_right].
  - intros [<- | []]. lia.
  - intros [<- | [<- | Hx]].
    + specialize (IH (or_introl eq_refl)). lia.
    + lia.
    + specialize (IH (or_intror Hx)). lia.
Qed.

Lemma next_id_fresh (rs : list TrainingPair) (r : TrainingPair) :
  In r rs -> (id r < crud.next_id rs)%Z.
Proof.
  intros Hr. apply (in_map id) in Hr. unfold crud.next_id.
  destruct (map id rs) as [|k ks]; [contradiction |].
  apply max_key_bound in Hr. lia.
Qed.

Lemma find_new_row (rs : list TrainingPair) (r : TrainingPair) :
  id r = crud.next_id rs ->
  find (fun r0 => Z.eqb (id r0) (id r)) (rs ++ [r])%list = Some r.
Proof.
  intros Hid.
  assert (Hold : forall q, In q rs -> Z.eqb (id q) (id r) = false).
  { intros q Hq. apply next_id_fresh in Hq. apply Z.eqb_neq. lia. }
  clear Hid. induction rs as [|q rs IH]; cbn [app find].
  - now rewrite Z.eqb_refl.
  - rewrite (Hold q) by now left. apply IH. intros q' Hq'. apply Hold. now right.
Qed.

(** [create_training_pair] in a session with nothing pending.  When the
    storage refuses the commit, its exception is raised again and no row is
    written.  When it accepts the commit the row is appended, and it is
    returned unless the storage refuses to read it back: then that
    exception is raised again, with the row stored. *)
Lemma create_training_pair_outcome `{P : Platform}
    (t : string) (v : json) (name : option string) (w : World) :
  pending (db w) = [] ->
  crud.create_training_pair t v name w
  = match storage_error (db w) with
    | Some e =>
        (Raise e,
         {| db := {| rows := rows (db w); pending := []; storage_error := Some e |};
            trace := trace w |})
    | None =>
        let row := {| id := crud.next_id (rows (db w)); text_content := t;
                      json_data := v; original_filename := name |} in
        (match storage_error_after_commit with
         | Some e => Raise e
         | None => Ok row
         end,
         {| db := {| rows := (rows (db w) ++ [row])%list; pending := [];
                     storage_error := storage_error_after_commit |};
            trace := trace w |})
    end.
Proof.
  intros Hpending.
  unfold crud.create_training_pair, crud.db_add, crud.db_commit, crud.db_refresh,
    crud.db_rollback.
  run_monad. rewrite Hpending. cbn [app].
  destruct (storage_error (db w)) as [e |] eqn:Herr; [reflexivity |].
  cbn -[crud.persist crud.next_id find].
  destruct storage_error_after_commit as [e |]; [reflexivity |].
  rewrite find_new_row by reflexivity.
  reflexivity.
Qed.

Lemma extract_text_from_upload_db `{P : Platform} (file : UploadFile) (w w' : World)
    (o : outcome string) :
  utils.extract_text_from_upload file w = (o, w') -> db w' = db w.
Proof.
  unfold utils.extract_text_from_upload.
  destruct (negb (utils.content_type_supported file)).
  - now intros [= _ <-].
  - run_monad. destruct (body file) as [content | e]; [now intros [= _ <-] |].
    destruct e; now intros [= _ <-].
Qed.

Lemma parse_json_upload_db `{P : Platform} (file : UploadFile) (w w' : World)
    (o : outcome json) :
  utils.parse_json_upload file w = (o, w') -> db w' = db w.
Proof.
  unfold utils.parse_json_upload.
  destruct (negb (utils.content_type_is file "application/json")).
  - now intros [= _ <-].
  - run_monad. destruct (body file) as [content | e].
    + destruct (json_loads_bytes content) as [v | e]; [now intros [= _ <-] |].
      destruct e; now intros [= _ <-].
    + destruct e; now intros [= _ <-].
Qed.

(** The upload handler, stage by stage. *)
Lemma upload_training_data_stages `{P : Platform} (doc_file json_file : UploadFile)
    (w : World) :
  main.upload_training_data doc_file json_file w
  = match utils.extract_text_from_upload doc_file w with
    | (Raise e, w1) =>
        main.reraise_http
          (fun e => "Server error extracting text from document: " ++ str_exn e) e w1
    | (Ok extracted_text, w1) =>
        match utils.parse_json_upload json_file w1 with
        | (Raise e, w2) =>
            main.reraise_http
              (fun e => "Server error parsing JSON file: " ++ str_exn e) e w2
        | (Ok json_data, w2) =>
            match crud.create_training_pair extracted_text json_data
                    (filename doc_file) w2 with
            | (Ok _, w3) =>
                (Ok {| status_code := 201;
                       content :=
                         JDict [("message",
                                 JStr ("Training data from '"
                                       ++ str_of_opt (filename doc_file)
                                       ++ "' and '" ++ str_of_opt (filename json_file)
                                       ++ "' uploaded and stored successfully."))] |},
                 w3)
            | (Raise _, w3) =>
                (Raise (HTTPException 500
                          (JStr "Failed to store training data in database.")), w3)
            end
        end
    end.
Proof.
  unfold main.upload_training_data. run_monad.
  destruct (utils.extract_text_from_upload doc_file w) as [[t | e] w1];
    [| destruct e; reflexivity].
  rewrite yields_no_text_false.
  destruct (utils.parse_json_upload json_file w1) as [[v | e] w2];
    [| destruct e; reflexivity].
  destruct (crud.create_training_pair t v (filename doc_file) w2) as [[r | e] w3];
    reflexivity.
Qed.





(* ===================================================================== *)
(** * Further results *)
(* ===================================================================== *)

(** ** DOCX extraction *)

Lemma fold_left_lines (paragraphs : list string) (acc : string) :
  fold_left (fun text para => text ++ (para ++ nl)) paragraphs acc
  = acc ++ String.concat "" (map (fun f => f ++ nl) paragraphs).
Proof.
  revert acc. induction paragraphs as [|para rest IH]; intros acc.
  - cbn. now rewrite append_nil_r.
  - cbn [fold_left]. rewrite IH, append_assoc. f_equal.
    destruct rest as [|y l].
    + cbn [map String.concat]. now rewrite append_nil_r.
    + reflexivity.
Qed.

(** X1. [extract_text_from_docx] returns the paragraph texts, in document
    order and with the empty ones kept, joined by newlines and trimmed; it
    returns the empty string when the document cannot be opened. *)
Theorem extract_text_from_docx_joins_paragraphs `{P : Platform} (stream : list byte) :
  utils.extract_text_from_docx stream
  = match Document stream with
    | Raise _ => ""
    | Ok paragraphs => strip (join nl paragraphs)
    end.
Proof.
  unfold utils.extract_text_from_docx.
  destruct (Document stream) as [paragraphs | e]; [| reflexivity].
  rewrite fold_left_lines. cbn [append]. apply strip_concat_lines.
Qed.

(** ** What the two upload utilities raise *)

(** X2. Whatever [extract_text_from_upload] raises is an [HTTPException];
    the call leaves the session as it was and reads the body at most once;
    and for a file of a supported type whose body can be read it returns a
    text, possibly empty, whatever state the document is in. *)
Theorem extract_text_from_upload_behaviour `{P : Platform}
    (file : UploadFile) (w w' : World) (o : outcome string) :
  utils.extract_text_from_upload file w = (o, w') ->
  db w' = db w
  /\ (trace w' = trace w \/ trace w' = (trace w ++ [FileRead (filename file)])%list)
  /\ (forall e, o = Raise e -> exists code detail, e = HTTPException code detail)
  /\ (utils.content_type_supported file = true ->
      forall content, body file = Ok content -> exists t, o = Ok t).
Proof.
  unfold utils.extract_text_from_upload.
  destruct (utils.content_type_supported file).
  - cbn [negb]. run_monad.
    destruct (body file) as [content | e].
    + intros [= <- <-]. repeat split; cbn; auto; [discriminate | eauto].
    + destruct e; intros [= <- <-]; repeat split; cbn; auto;
        try (intros e [= <-]; eauto); try discriminate.
  - cbn [negb]. unfold raise. intros [= <- <-]. repeat split; auto.
    + intros e [= <-]. eauto.
    + discriminate.
Qed.

Lemma extract_text_from_upload_behaviour_witness :
  let P := Fixtures.platform None "" in
  utils.extract_text_from_upload Fixtures.corrupt_pdf Fixtures.start
  = (Ok "", {| db := Fixtures.empty_session; trace := [FileRead (Some "scan.pdf")] |})
  /\ exists t, Ok "" = Ok t.
Proof.
  intros P. split; [reflexivity |].
  exact (proj2 (proj2 (proj2
           (extract_text_from_upload_behaviour Fixtures.corrupt_pdf Fixtures.start
              {| db := Fixtures.empty_session; trace := [FileRead (Some "scan.pdf")] |}
              (Ok "") eq_refl)))
           eq_refl (list_byte_of_string "not a pdf") eq_refl).
Defined.

(** X3. Whatever [parse_json_upload] raises is an [HTTPException] with
    status 400 or 500, also when reading the body itself fails; the call
    leaves the session as it was. *)
Theorem parse_json_upload_raises_http `{P : Platform}
    (file : UploadFile) (w w' : World) (e : exn) :
  utils.parse_json_upload file w = (Raise e, w') ->
  db w' = db w
  /\ exists code detail,
       e = HTTPException code detail /\ (code = 400%Z \/ code = 500%Z).
Proof.
  unfold utils.parse_json_upload.
  destruct (negb (utils.content_type_is file "application/json")).
  - unfold raise. intros [= <- <-]. split; [reflexivity | eauto].
  - run_monad. destruct (body file) as [content | e0].
    + destruct (json_loads_bytes content) as [v | e0]; [discriminate |].
      destruct e0; intros [= <- <-]; split; eauto.
    + destruct e0; intros [= <- <-]; split; eauto.
Qed.

Lemma parse_json_upload_raises_http_witness :
  let P := Fixtures.platform None "" in
  let file := {| filename := Some "data.json"; content_type := Some "application/json";
                 body := Raise (HTTPException 413 (JStr "Request entity too large")) |} in
  let w' := {| db := Fixtures.empty_session; trace := [FileRead (Some "data.json")] |} in
  utils.parse_json_upload file Fixtures.start
  = (Raise (HTTPException 500
              (JStr "Error processing JSON file data.json: 413: Request entity too large")),
     w')
  /\ db w' = db Fixtures.start.
Proof.
  intros P file w'.
  assert (Hrun : utils.parse_json_upload file Fixtures.start
                 = (Raise (HTTPException 500
                             (JStr "Error processing JSON file data.json: 413: Request entity too large")),
                    w')) by reflexivity.
  split; [exact Hrun |].
  exact (proj1 (parse_json_upload_raises_http file Fixtures.start w' _ Hrun)).
Defined.

(** ** The generation client, whatever the service does *)

(** X4. [generate_json_with_gemini] never raises: for every input, example
    list, model name, credential and behaviour of the service it returns a
    value.  It leaves the session as it was and issues at most one request,
    whose prompt is the one built from its arguments. *)
Theorem generate_returns_a_value `{P : Platform}
    (input_text : string) (examples : list TrainingPair) (model_name : string)
    (w : World) :
  exists v w',
    utils.generate_json_with_gemini input_text examples model_name w = (Ok v, w')
    /\ db w' = db w
    /\ (trace w' = trace w
        \/ trace w' = (trace w ++ [GenerateContent model_name
                                     (utils.full_prompt input_text examples)])%list).
Proof.
  destruct utils.api_key_configured eqn:Hkey.
  - rewrite (generate_configured _ _ _ _ Hkey). do 2 eexists.
    split; [reflexivity |]. split; [reflexivity |]. right. reflexivity.
  - unfold utils.generate_json_with_gemini. rewrite Hkey. do 2 eexists.
    split; [reflexivity |]. split; [reflexivity |]. left. reflexivity.
Qed.

(** ** Fence removal on a well-formed fenced completion *)

Lemma lstrip_all_space (s : string) : all_space s = true -> lstrip s = "".
Proof.
  induction s as [|c s IH]; [reflexivity |]. cbn [all_space lstrip].
  intros H. apply andb_true_iff in H as [-> Hs]. now apply IH.
Qed.

Lemma rstrip_all_space (s : string) : all_space s = true -> rstrip s = "".
Proof.
  induction s as [|c s IH]; [reflexivity |]. cbn [all_space].
  intros H. apply andb_true_iff in H as [Hc Hs].
  rewrite rstrip_cons, (IH Hs). now rewrite Hc.
Qed.

Lemma lstrip_app_space (ws s : string) :
  all_space ws = true -> lstrip (ws ++ s) = lstrip s.
Proof.
  induction ws as [|c ws IH]; [reflexivity |]. cbn [all_space append lstrip].
  intros H. apply andb_true_iff in H as [-> Hs]. now apply IH.
Qed.

Lemma rstrip_app_space (s ws : string) :
  all_space ws = true -> rstrip (s ++ ws) = rstrip s.
Proof.
  intros Hws. induction s as [|c s IH].
  - now apply rstrip_all_space.
  - cbn [append]. now rewrite !rstrip_cons, IH.
Qed.

(** Text before a part that [rstrip] leaves something of is kept whole. *)
Lemma rstrip_app_keep (s t : string) :
  rstrip t <> "" -> rstrip (s ++ t) = s ++ rstrip t.
Proof.
  intros Ht. induction s as [|c s IH]; [reflexivity |].
  cbn [append]. rewrite rstrip_cons, IH.
  destruct (s ++ rstrip t) as [|d r] eqn:E; [| reflexivity].
  destruct s; [now destruct Ht | discriminate].
Qed.

Lemma lstrip_app_nonspace (s : string) (c : ascii) (t : string) :
  is_space c = false -> lstrip (s ++ String c t) = lstrip s ++ String c t.
Proof.
  intros Hc. induction s as [|d s IH]; cbn [append lstrip].
  - now rewrite Hc.
  - destruct (is_space d); [exact IH | reflexivity].
Qed.

Lemma lstrip_idempotent (s : string) : lstrip (lstrip s) = lstrip s.
Proof.
  induction s as [|c s IH]; [reflexivity |]. cbn [lstrip].
  destruct (is_space c) eqn:Hc; [exact IH |]. cbn [lstrip]. now rewrite Hc.
Qed.

Lemma endswith_app (s p : string) : endswith (s ++ p) p = true.
Proof.
  induction s as [|c s IH].
  - destruct p; cbn [append endswith]; now rewrite String.eqb_refl.
  - cbn [append endswith]. rewrite IH. apply orb_true_r.
Qed.

Lemma append_length (s t : string) :
  String.length (s ++ t) = String.length s + String.length t.
Proof. induction s as [|c s IH]; cbn [append String.length]; [reflexivity | now rewrite IH]. Qed.

Lemma take_app (s t : string) : take (String.length s) (s ++ t) = s.
Proof. induction s as [|c s IH]; cbn; [now destruct t | now rewrite IH]. Qed.

Lemma drop_last_app (s t : string) : drop_last (String.length t) (s ++ t) = s.
Proof.
  unfold drop_last. rewrite append_length.
  replace (String.length s + String.length t - String.length t) with (String.length s)
    by lia.
  apply take_app.
Qed.

(** What is left of a completion that is fenced, possibly with whitespace
    around the fences, once stripped as [json.loads] receives it. *)
Lemma remove_fences_fenced `{P : Platform} (lead body trail : string) :
  all_space lead = true ->
  all_space trail = true ->
  strip (utils.remove_fences (lead ++ "```json" ++ body ++ "```" ++ trail))
  = strip body.
Proof.
  intros Hlead Htrail. unfold utils.remove_fences.
  assert (Hstrip : strip (lead ++ "```json" ++ body ++ "```" ++ trail)
                   = "```json" ++ body ++ "```").
  { unfold strip. rewrite (lstrip_app_space lead _ Hlead).
    change (lstrip ("```json" ++ body ++ "```" ++ trail))
      with ("```json" ++ body ++ "```" ++ trail).
    replace ("```json" ++ body ++ "```" ++ trail)
      with ((("```json" ++ body) ++ "```") ++ trail)
      by now rewrite !append_assoc.
    rewrite (rstrip_app_space _ trail Htrail).
    rewrite rstrip_app_keep by discriminate.
    now rewrite append_assoc. }
  rewrite Hstrip.
  replace (startswith ("```json" ++ body ++ "```") "```json") with true
    by (symmetry; apply (prefix_app "```json")).
  change (drop 7 ("```json" ++ body ++ "```")) with (body ++ "```").
  assert (Hinner : strip (body ++ "```") = lstrip body ++ "```").
  { unfold strip. rewrite lstrip_app_nonspace by reflexivity.
    now rewrite rstrip_app_keep by discriminate. }
  rewrite Hinner, endswith_app.
  replace (drop_last 3 (lstrip body ++ "```")) with (lstrip body)
    by (symmetry; exact (drop_last_app (lstrip body) "```")).
  unfold strip. now rewrite lstrip_idempotent.
Qed.

(** X5. A completion that wraps a JSON text in a "```json" fence and a
    closing "```" fence, with any whitespace before, after and inside the
    fences, is parsed to the value of the JSON text: the fences are cut off
    before [json.loads] is called. *)
Theorem parse_generated_fenced `{P : Platform}
    (lead body trail : string) (v : json) :
  all_space lead = true ->
  all_space trail = true ->
  json_loads (strip body) = Ok v ->
  utils.parse_generated (lead ++ "```json" ++ body ++ "```" ++ trail) = v.
Proof.
  intros Hlead Htrail Hloads. unfold utils.parse_generated.
  now rewrite (remove_fences_fenced lead body trail Hlead Htrail), Hloads.
Qed.

Lemma parse_generated_fenced_witness :
  let P := Fixtures.platform (Some "key") "" in
  utils.parse_generated
    (" " ++ "```json" ++ (nl ++ "[1, [true, null]]" ++ nl) ++ "```" ++ nl)
  = JList [JInt 1; JList [JBool true; JNull]].
Proof.
  intros P.
  assert (Hloads : json_loads (strip (nl ++ "[1, [true, null]]" ++ nl))
                   = Ok (JList [JInt 1; JList [JBool true; JNull]])) by reflexivity.
  exact (parse_generated_fenced " " (nl ++ "[1, [true, null]]" ++ nl) nl _
           eq_refl eq_refl Hloads).
Defined.

(** ** The example store: keys, atomic writes, reading back *)

Lemma next_id_not_in (rs : list TrainingPair) : ~ In (crud.next_id rs) (map id rs).
Proof.
  intros Hin. apply in_map_iff in Hin as [r [Hid Hr]].
  apply next_id_fresh in Hr. lia.
Qed.

(** X6. [create_training_pair], in a session with nothing pending and on a
    store whose keys are pairwise distinct and below the largest 64-bit
    integer.  When the storage refuses the commit, its exception is raised
    again and the rows are the ones found.  When it accepts the commit,
    the store has gained exactly one row, which holds the three values
    given under a key larger than every key in use, and the keys are still
    pairwise distinct; the row is returned, unless the storage refuses to
    read it back: then that exception is raised again although the row is
    stored.  In every case nothing is left pending. *)
Theorem create_training_pair_atomic `{P : Platform}
    (t : string) (v : json) (name : option string) (w : World) :
  pending (db w) = [] ->
  NoDup (map id (rows (db w))) ->
  (forall r, In r (rows (db w)) -> (id r < 2 ^ 63 - 1)%Z) ->
  let row := {| id := crud.next_id (rows (db w)); text_content := t;
                json_data := v; original_filename := name |} in
  (forall r, In r (rows (db w)) -> (id r < id row)%Z)
  /\ NoDup (map id (rows (db w) ++ [row])%list)
  /\ match crud.create_training_pair t v name w with
     | (Ok created, w') =>
         created = row
         /\ storage_error (db w) = None
         /\ rows (db w') = (rows (db w) ++ [row])%list
         /\ pending (db w') = []
         /\ trace w' = trace w
     | (Raise e, w') =>
         pending (db w') = []
         /\ trace w' = trace w
         /\ ((storage_error (db w) = Some e /\ rows (db w') = rows (db w))
             \/ (storage_error (db w) = None
                 /\ storage_error_after_commit = Some e
                 /\ rows (db w') = (rows (db w) ++ [row])%list))
     end.
Proof.
  intros Hpending Hnodup _ row. split; [| split].
  - intros r Hr. now apply next_id_fresh.
  - rewrite map_app. cbn [map id row].
    apply NoDup_app; [exact Hnodup | repeat constructor; intros [] |].
    intros k Hk [<- | []]. exact (next_id_not_in _ Hk).
  - rewrite (create_training_pair_outcome t v name w Hpending).
    destruct (storage_error (db w)) as [e |].
    + repeat split. left. split; reflexivity.
    + cbv zeta. destruct storage_error_after_commit as [e |].
      * repeat split. right. repeat split.
      * repeat split.
Qed.

Lemma create_training_pair_atomic_witness :
  let P := reference_platform_with Fixtures.pdf_reader Fixtures.docx_reader None
             (Fixtures.answering "") (Some (Exception "database is locked")) in
  let w := {| db := {| rows := [Fixtures.pair 4 "a" JNull; Fixtures.pair 2 "b" JNull];
                       pending := []; storage_error := None |};
              trace := [] |} in
  let row := {| id := 5; text_content := "Memo"; json_data := JInt 1;
                original_filename := Some "memo.pdf" |} in
  crud.create_training_pair "Memo" (JInt 1) (Some "memo.pdf") w
  = (Raise (Exception "database is locked"),
     {| db := {| rows := [Fixtures.pair 4 "a" JNull; Fixtures.pair 2 "b" JNull; row];
                 pending := [];
                 storage_error := Some (Exception "database is locked") |};
        trace := [] |})
  /\ NoDup (map id [Fixtures.pair 4 "a" JNull; Fixtures.pair 2 "b" JNull; row]).
Proof.
  intros P w row.
  assert (Hpending : pending (db w) = []) by reflexivity.
  assert (Hnodup : NoDup (map id (rows (db w)))).
  { repeat constructor; cbn; intuition discriminate. }
  assert (Hsmall : forall r, In r (rows (db w)) -> (id r < 2 ^ 63 - 1)%Z).
  { intros r [<- | [<- | []]]; cbn; lia. }
  split; [reflexivity |].
  exact (proj1 (proj2 (create_training_pair_atomic "Memo" (JInt 1) (Some "memo.pdf") w
                         Hpending Hnodup Hsmall))).
Defined.




Lemma insert_asc_perm (p : TrainingPair) (l : list TrainingPair) :
  Permutation (crud.insert_asc p l) (p :: l).
Proof.
  induction l as [|q l IH]; cbn [crud.insert_asc]; [reflexivity |].
  destruct (id p <=? id q)%Z; [reflexivity |].
  rewrite IH. apply perm_swap.
Qed.

Lemma order_by_id_perm (l : list TrainingPair) :
  Permutation (crud.order_by_id l) l.
Proof.
  induction l as [|p l IH]; [reflexivity |].
  unfold crud.order_by_id in *. cbn [fold_right].
  rewrite insert_asc_perm. now constructor.
Qed.

Lemma insert_asc_sorted (p : TrainingPair) (l : list TrainingPair) :
  StronglySorted Spec.older_first l ->
  StronglySorted Spec.older_first (crud.insert_asc p l).
Proof.
  induction 1 as [|q l Hs IH Hq]; cbn [crud.insert_asc].
  - repeat constructor.
  - destruct (Z.leb_spec (id p) (id q)) as [Hle | Hlt].
    + constructor; [now constructor |].
      constructor; [exact Hle |].
      eapply Forall_impl; [| exact Hq]. unfold Spec.older_first. intros x Hx. lia.
    + constructor; [exact IH |].
      eapply Permutation_Forall; [symmetry; apply insert_asc_perm |].
      constructor; [unfold Spec.older_first; lia | exact Hq].
Qed.

Lemma order_by_id_sorted (l : list TrainingPair) :
  StronglySorted Spec.older_first (crud.order_by_id l).
Proof.
  induction l as [|p l IH]; [constructor |].
  apply insert_asc_sorted. exact IH.
Qed.

Lemma get_all_training_pairs_reads (w : World) :
  crud.get_all_training_pairs w
  = (Ok (match storage_error (db w) with
         | Some _ => []
         | None => crud.order_by_id (rows (db w))
         end), w).
Proof.
  unfold crud.get_all_training_pairs, crud.query_all. run_monad.
  destruct (storage_error (db w)); reflexivity.
Qed.

(** X8. [get_all_training_pairs] never raises and leaves the world as it
    was.  When the storage answers it returns every row of the store,
    each as often as it occurs, in ascending identity order; when the read
    fails it returns the empty list. *)
Theorem get_all_training_pairs_ascending (w : World) :
  exists pairs,
    crud.get_all_training_pairs w = (Ok pairs, w)
    /\ StronglySorted Spec.older_first pairs
    /\ (storage_error (db w) = None -> Permutation pairs (rows (db w)))
    /\ (storage_error (db w) <> None -> pairs = []).
Proof.
  rewrite get_all_training_pairs_reads. eexists. split; [reflexivity |].
  destruct (storage_error (db w)) as [e |].
  - repeat split; [constructor | discriminate].
  - repeat split.
    + apply order_by_id_sorted.
    + intros _. apply order_by_id_perm.
    + intros H. now destruct H.
Qed.

Lemma sorted_app_intro {A} (R : A -> A -> Prop) (x y : list A) :
  StronglySorted R x -> StronglySorted R y ->
  (forall a b, In a x -> In b y -> R a b) ->
  StronglySorted R (x ++ y)%list.
Proof.
  induction 1 as [|a x Hx IH Ha]; intros Hy Hxy; cbn [app]; [exact Hy |].
  constructor.
  - apply IH; [exact Hy |]. intros a' b Ha' Hb. apply Hxy; [now right | exact Hb].
  - apply Forall_app. split; [exact Ha |].
    apply Forall_forall. intros b Hb. apply Hxy; [now left | exact Hb].
Qed.

Lemma ascending_rev (l : list TrainingPair) :
  StronglySorted Spec.older_first l -> StronglySorted Spec.newer_first (rev l).
Proof.
  induction 1 as [|a l Hl IH Ha]; cbn [rev]; [constructor |].
  apply sorted_app_intro; [exact IH | repeat constructor |].
  intros x b Hx [<- | []]. apply in_rev in Hx.
  rewrite Forall_forall in Ha. exact (Ha x Hx).
Qed.

Lemma same_key_same_row (l : list TrainingPair) (a b : TrainingPair) :
  NoDup (map id l) -> In a l -> In b l -> id a = id b -> a = b.
Proof.
  induction l as [|q l IH]; [contradiction |].
  cbn [map]. intros Hnodup Ha Hb Hid. apply NoDup_cons_iff in Hnodup as [Hq Hnodup].
  destruct Ha as [-> | Ha], Hb as [-> | Hb]; try reflexivity.
  - destruct Hq. rewrite Hid. now apply in_map.
  - destruct Hq. rewrite <- Hid. now apply in_map.
  - now apply IH.
Qed.

(** Two descending orderings of the same rows agree when the keys are
    pairwise distinct. *)
Lemma descending_unique (l1 : list TrainingPair) :
  forall l2,
    StronglySorted Spec.newer_first l1 -> StronglySorted Spec.newer_first l2 ->
    Permutation l1 l2 -> NoDup (map id l1) -> l1 = l2.
Proof.
  induction l1 as [|a l1 IH]; intros l2 Hs1 Hs2 Hperm Hnodup.
  - apply Permutation_nil in Hperm. now subst.
  - destruct l2 as [|b l2]; [now apply Permutation_sym, Permutation_nil in Hperm |].
    apply StronglySorted_inv in Hs1 as [Hs1 Ha].
    apply StronglySorted_inv in Hs2 as [Hs2 Hb].
    rewrite Forall_forall in Ha, Hb. unfold Spec.newer_first in Ha, Hb.
    assert (Hba : In b (a :: l1))
      by (apply (Permutation_in _ (Permutation_sym Hperm)); now left).
    assert (Hab : In a (b :: l2)) by (apply (Permutation_in _ Hperm); now left).
    assert (Hid : id a = id b).
    { destruct Hba as [-> | Hba]; [reflexivity |].
      destruct Hab as [<- | Hab]; [reflexivity |].
      specialize (Ha b Hba). specialize (Hb a Hab). lia. }
    assert (a = b) as <-
        by (apply (same_key_same_row (a :: l1)); auto; now left).
    f_equal. apply IH; auto.
    + now apply Permutation_cons_inv in Hperm.
    + cbn [map] in Hnodup. now apply NoDup_cons_iff in Hnodup.
Qed.

(** X9. When the keys of the store are pairwise distinct and the limit is
    at least the number of rows, and within SQLite's 64-bit integers,
    [get_training_examples] returns the list of [get_all_training_pairs] in
    reverse. *)
Theorem recent_examples_reverse_all (limit : Z) (w : World) :
  NoDup (map id (rows (db w))) ->
  (Z.of_nat (List.length (rows (db w))) <= limit < 2 ^ 63)%Z ->
  exists pairs,
    crud.get_all_training_pairs w = (Ok pairs, w)
    /\ crud.get_training_examples limit w = (Ok (rev pairs), w).
Proof.
  intros Hnodup Hlimit.
  rewrite get_all_training_pairs_reads, get_training_examples_reads.
  eexists. split; [reflexivity |].
  destruct (storage_error (db w)); [reflexivity |].
  unfold crud.sql_limit. destruct (Z.ltb_spec limit 0) as [Hneg | _]; [lia |].
  rewrite firstn_all2
    by (rewrite (Permutation_length (order_by_id_desc_perm _)); lia).
  do 2 f_equal. apply descending_unique.
  - apply order_by_id_desc_sorted.
  - apply ascending_rev, order_by_id_sorted.
  - rewrite order_by_id_desc_perm. rewrite <- Permutation_rev.
    symmetry. apply order_by_id_perm.
  - eapply Permutation_NoDup; [| exact Hnodup].
    apply Permutation_map. symmetry. apply order_by_id_desc_perm.
Qed.

Lemma recent_examples_reverse_all_witness :
  let w := {| db := {| rows := [Fixtures.pair 2 "b" JNull; Fixtures.pair 3 "c" JNull;
                               Fixtures.pair 1 "a" JNull];
                       pending := []; storage_error := None |};
              trace := [] |} in
  crud.get_all_training_pairs w
  = (Ok [Fixtures.pair 1 "a" JNull; Fixtures.pair 2 "b" JNull; Fixtures.pair 3 "c" JNull], w)
  /\ crud.get_training_examples 5 w
     = (Ok [Fixtures.pair 3 "c" JNull; Fixtures.pair 2 "b" JNull; Fixtures.pair 1 "a" JNull], w).
Proof.
  intros w.
  assert (Hnodup : NoDup (map id (rows (db w)))).
  { repeat constructor; cbn; intuition discriminate. }
  assert (Hlimit : (Z.of_nat (List.length (rows (db w))) <= 5 < 2 ^ 63)%Z)
    by (cbn; lia).
  destruct (recent_examples_reverse_all 5 w Hnodup Hlimit) as [pairs [Hall Hrecent]].
  assert (Hpairs : pairs = [Fixtures.pair 1 "a" JNull; Fixtures.pair 2 "b" JNull;
                            Fixtures.pair 3 "c" JNull])
    by (vm_compute in Hall; now injection Hall).
  subst pairs. split; [exact Hall | exact Hrecent].
Defined.

(** ** The upload endpoint: what a failed upload leaves behind *)

Lemma reraise_http_outcome `{P : Platform} {A} (detail : exn -> string) (e : exn)
    (w : World) :
  @main.reraise_http A detail e w
  = (Raise (match e with
            | HTTPException code d => HTTPException code d
            | _ => HTTPException 500 (JStr (detail e))
            end), w).
Proof. destruct e; reflexivity. Qed.



(** X11. When the document and the JSON file are accepted but the storage
    fails, [upload_training_data] answers with status 500 and the fixed
    detail "Failed to store training data in database.": the storage's own
    exception does not reach the client.  When it is the commit that fails
    no row is written; when the commit is accepted and reading the row
    back fails, the answer is the same and the row is stored. *)
Theorem upload_storage_failure_is_hidden `{P : Platform}
    (doc_file json_file : UploadFile) (w w1 w2 : World)
    (extracted_text : string) (parsed : json) (failure : exn) :
  pending (db w) = [] ->
  utils.extract_text_from_upload doc_file w = (Ok extracted_text, w1) ->
  utils.parse_json_upload json_file w1 = (Ok parsed, w2) ->
  (storage_error (db w) = Some failure ->
   exists w',
     main.upload_training_data doc_file json_file w
     = (Raise (HTTPException 500 (JStr "Failed to store training data in database.")),
        w')
     /\ rows (db w') = rows (db w)
     /\ trace w' = trace w2)
  /\ (storage_error (db w) = None ->
      storage_error_after_commit = Some failure ->
      exists w',
        main.upload_training_data doc_file json_file w
        = (Raise (HTTPException 500
                    (JStr "Failed to store training data in database.")),
           w')
        /\ rows (db w')
           = (rows (db w)
              ++ [{| id := crud.next_id (rows (db w));
                     text_content := extracted_text;
                     json_data := parsed;
                     original_filename := filename doc_file |}])%list
        /\ trace w' = trace w2).
Proof.
  intros Hpending Hextract Hparse.
  rewrite upload_training_data_stages, Hextract, Hparse.
  apply extract_text_from_upload_db in Hextract.
  apply parse_json_upload_db in Hparse.
  rewrite create_training_pair_outcome by (rewrite Hparse, Hextract; exact Hpending).
  rewrite Hparse, Hextract. split.
  - intros ->. eexists. split; [reflexivity |]. split; reflexivity.
  - intros -> ->. eexists. split; [reflexivity |]. split; reflexivity.
Qed.

Lemma upload_storage_failure_is_hidden_witness :
  let P := reference_platform_with Fixtures.pdf_reader Fixtures.docx_reader None
             (Fixtures.answering "") (Some (Exception "disk I/O error")) in
  let json_file := Fixtures.upload "invoice.json" "application/json"
                     (list_byte_of_string "[42, 10]") in
  let w := {| db := {| rows := [Fixtures.pair 1 "a" JNull]; pending := [];
                       storage_error := None |};
              trace := [] |} in
  exists w',
    main.upload_training_data Fixtures.sample_pdf json_file w
    = (Raise (HTTPException 500 (JStr "Failed to store training data in database.")),
       w')
    /\ rows (db w')
       = [Fixtures.pair 1 "a" JNull;
          {| id := 2; text_content := "Invoice 42" ++ nl ++ "Total: 10";
             json_data := JList [JInt 42; JInt 10];
             original_filename := Some "invoice.pdf" |}].
Proof.
  intros P json_file w.
  set (w1 := {| db := db w; trace := [FileRead (Some "invoice.pdf")] |}).
  set (w2 := {| db := db w;
                trace := [FileRead (Some "invoice.pdf");
                          FileRead (Some "invoice.json")] |}).
  assert (Hextract : utils.extract_text_from_upload Fixtures.sample_pdf w
                     = (Ok ("Invoice 42" ++ nl ++ "Total: 10"), w1)) by reflexivity.
  assert (Hparse : utils.parse_json_upload json_file w1
                   = (Ok (JList [JInt 42; JInt 10]), w2)) by reflexivity.
  destruct (proj2 (upload_storage_failure_is_hidden Fixtures.sample_pdf json_file
                     w w1 w2 ("Invoice 42" ++ nl ++ "Total: 10")
                     (JList [JInt 42; JInt 10]) (Exception "disk I/O error")
                     eq_refl Hextract Hparse) eq_refl eq_refl)
    as [w' [Hrun [Hrows _]]].
  exists w'. split; [exact Hrun | exact Hrows].
Defined.

(** X12. An upload whose document has an unsupported declared type is
    refused with the extractor's 400 error before anything else happens:
    neither file is read and the store is not touched. *)
Theorem upload_unsupported_document `{P : Platform}
    (doc_file json_file : UploadFile) (w : World) :
  content_type doc_file <> Some utils.PDF_TYPE ->
  content_type doc_file <> Some utils.DOCX_TYPE ->
  main.upload_training_data doc_file json_file w
  = (Raise (HTTPException 400
              (JStr ("Unsupported file type: " ++ str_of_opt (content_type doc_file)
                     ++ ". Please upload PDF or DOCX."))),
     w).
Proof.
  intros Hpdf Hdocx. rewrite upload_training_data_stages.
  unfold utils.extract_text_from_upload.
  rewrite (content_type_unsupported doc_file Hpdf Hdocx). reflexivity.
Qed.

Lemma upload_unsupported_document_witness :
  let P := Fixtures.platform None "" in
  let doc_file := Fixtures.upload "notes.txt" "text/plain" (list_byte_of_string "hello") in
  let json_file := Fixtures.upload "notes.json" "application/json"
                     (list_byte_of_string "[1]") in
  main.upload_training_data doc_file json_file Fixtures.start
  = (Raise (HTTPException 400
              (JStr "Unsupported file type: text/plain. Please upload PDF or DOCX.")),
     Fixtures.start).
Proof.
  intros P doc_file json_file.
  assert (Hpdf : content_type doc_file <> Some utils.PDF_TYPE) by discriminate.
  assert (Hdocx : content_type doc_file <> Some utils.DOCX_TYPE) by discriminate.
  exact (upload_unsupported_document doc_file json_file Fixtures.start Hpdf Hdocx).
Defined.

(** ** The query endpoint: what it answers and what it leaves alone *)

Lemma query_extract_cases `{P : Platform} (doc_file : UploadFile) (w : World) :
  main.query_extract doc_file w
  = match utils.extract_text_from_upload doc_file w with
    | (Ok input_text, w1) => (Ok input_text, w1)
    | (Raise e, w1) =>
        main.reraise_http (fun _ => "Server error processing query document.") e w1
    end.
Proof.
  unfold main.query_extract. run_monad.
  destruct (utils.extract_text_from_upload doc_file w) as [[t | e] w1];
    [now rewrite yields_no_text_false | reflexivity].
Qed.

(** The examples [process_query] hands to the generation utility. *)
Lemma query_examples (w : World) :
  crud.get_training_examples 5 w
  = (Ok (match storage_error (db w) with
         | Some _ => []
         | None => firstn 5 (crud.order_by_id_desc (rows (db w)))
         end), w).
Proof. apply get_training_examples_reads. Qed.

Lemma query_answer_raises `{P : Platform} (v : json) (e : exn) :
  Spec.query_answer v = Raise e -> exists detail, e = HTTPException 500 detail.
Proof.
  unfold Spec.query_answer.
  destruct v; try (destruct (JSONResponse_render_error _); intros [= <-]; eauto).
  destruct (dict_get "error" items); [intros [= <-]; eauto |].
  destruct (JSONResponse_render_error _); intros [= <-]; eauto.
Qed.

Lemma query_answer_success `{P : Platform} (v : json) (response : JSONResponse) :
  Spec.query_answer v = Ok response ->
  response = {| status_code := 200; content := v |}
  /\ (forall items, v = JDict items -> dict_get "error" items = None).
Proof.
  unfold Spec.query_answer.
  destruct v; try (destruct (JSONResponse_render_error _); intros [= <-];
                   split; [reflexivity | discriminate]).
  destruct (dict_get "error" items) eqn:Herr; [discriminate |].
  destruct (JSONResponse_render_error _); intros [= <-].
  split; [reflexivity |]. now intros items' [= <-].
Qed.

(** The answer of [process_query] once the text is extracted, by the value
    the generation utility returns. *)
Lemma process_query_answer `{P : Platform}
    (doc_file : UploadFile) (w w1 w' : World) (input_text : string)
    (examples : list TrainingPair) (v : json) :
  utils.extract_text_from_upload doc_file w = (Ok input_text, w1) ->
  crud.get_training_examples 5 w1 = (Ok examples, w1) ->
  utils.generate_json_with_gemini input_text examples utils.DEFAULT_MODEL w1
  = (Ok v, w') ->
  main.process_query doc_file w = (Spec.query_answer v, w').
Proof.
  intros Hextract Hexamples Hgenerate. unfold main.process_query, bind.
  rewrite (query_extract_ok _ _ _ _ Hextract).
  exact (query_generate_outcome input_text w1 w' examples v Hexamples Hgenerate).
Qed.

(** X13. [process_query] only reads the store: whatever the document, the
    credential and the service, the session it leaves is the one it
    found; and whatever it raises is an [HTTPException]. *)
Theorem process_query_reads_only `{P : Platform}
    (doc_file : UploadFile) (w w' : World) (o : outcome JSONResponse) :
  main.process_query doc_file w = (o, w') ->
  db w' = db w
  /\ (forall e, o = Raise e -> exists code detail, e = HTTPException code detail).
Proof.
  destruct (utils.extract_text_from_upload doc_file w) as [[t | e] w1] eqn:Hextract.
  - destruct (generate_never_raises t
                (match storage_error (db w1) with
                 | Some _ => []
                 | None => firstn 5 (crud.order_by_id_desc (rows (db w1)))
                 end) utils.DEFAULT_MODEL w1) as [v [w2 [Hgenerate Hdb2]]].
    rewrite (process_query_answer _ _ _ _ _ _ _ Hextract (query_examples w1) Hgenerate).
    apply extract_text_from_upload_db in Hextract.
    intros [= <- <-]. split; [congruence |].
    intros e He. apply query_answer_raises in He as [detail ->]. eauto.
  - unfold main.process_query, bind. rewrite query_extract_cases, Hextract.
    apply extract_text_from_upload_db in Hextract.
    rewrite reraise_http_outcome. intros [= <- <-]. split; [exact Hextract |].
    intros e' [= <-]. destruct e; eauto.
Qed.

Lemma process_query_reads_only_witness :
  let P := Fixtures.platform (Some "key") "[1]" in
  let w := {| db := {| rows := [Fixtures.pair 1 "Invoice 7" (JInt 7)]; pending := [];
                       storage_error := None |};
              trace := [] |} in
  exists w',
    main.process_query Fixtures.sample_pdf w
    = (Ok {| status_code := 200; content := JList [JInt 1] |}, w')
    /\ db w' = db w.
Proof.
  intros P w.
  destruct (main.process_query Fixtures.sample_pdf w) as [o w'] eqn:Hrun.
  pose proof (proj1 (process_query_reads_only Fixtures.sample_pdf w w' o Hrun)) as Hdb.
  assert (Ho : o = Ok {| status_code := 200; content := JList [JInt 1] |})
    by (vm_compute in Hrun; now injection Hrun).
  subst o. exists w'. split; [reflexivity | exact Hdb].
Defined.

(** X14. A success of [process_query] has status 200 and carries a value
    that is not an object with a top-level key "error". *)
Theorem process_query_success `{P : Platform}
    (doc_file : UploadFile) (w w' : World) (response : JSONResponse) :
  main.process_query doc_file w = (Ok response, w') ->
  status_code response = 200%Z
  /\ (forall items, content response = JDict items -> dict_get "error" items = None).
Proof.
  destruct (utils.extract_text_from_upload doc_file w) as [[t | e] w1] eqn:Hextract.
  - destruct (generate_never_raises t
                (match storage_error (db w1) with
                 | Some _ => []
                 | None => firstn 5 (crud.order_by_id_desc (rows (db w1)))
                 end) utils.DEFAULT_MODEL w1) as [v [w2 [Hgenerate _]]].
    rewrite (process_query_answer _ _ _ _ _ _ _ Hextract (query_examples w1) Hgenerate).
    intros [= Hanswer _]. apply query_answer_success in Hanswer as [-> Hclean].
    split; [reflexivity | exact Hclean].
  - unfold main.process_query, bind. rewrite query_extract_cases, Hextract.
    rewrite reraise_http_outcome. discriminate.
Qed.

Lemma process_query_success_witness :
  let completion := "{" ++ dq ++ "total" ++ dq ++ ": 10}" in
  let P := Fixtures.platform (Some "key") completion in
  exists w',
    main.process_query Fixtures.sample_pdf Fixtures.start
    = (Ok {| status_code := 200; content := JDict [("total", JInt 10)] |}, w')
    /\ dict_get "error" [("total", JInt 10)] = None.
Proof.
  intros completion P.
  destruct (main.process_query Fixtures.sample_pdf Fixtures.start)
    as [[response | e] w'] eqn:Hrun; [| discriminate Hrun].
  pose proof (process_query_success Fixtures.sample_pdf Fixtures.start w' response Hrun)
    as [_ Hcontent].
  assert (Hresponse : response
                      = {| status_code := 200; content := JDict [("total", JInt 10)] |})
    by (vm_compute in Hrun; now injection Hrun).
  subst response. exists w'. split; [reflexivity |].
  exact (Hcontent _ eq_refl).
Defined.

(** X15. A query whose document has an unsupported declared type is
    refused with the extractor's 400 error: the file is not read, the
    store is not queried and no request is sent. *)
Theorem process_query_unsupported_document `{P : Platform}
    (doc_file : UploadFile) (w : World) :
  content_type doc_file <> Some utils.PDF_TYPE ->
  content_type doc_file <> Some utils.DOCX_TYPE ->
  main.process_query doc_file w
  = (Raise (HTTPException 400
              (JStr ("Unsupported file type: " ++ str_of_opt (content_type doc_file)
                     ++ ". Please upload PDF or DOCX."))),
     w).
Proof.
  intros Hpdf Hdocx. unfold main.process_query, bind. rewrite query_extract_cases.
  unfold utils.extract_text_from_upload.
  rewrite (content_type_unsupported doc_file Hpdf Hdocx). reflexivity.
Qed.

Lemma process_query_unsupported_document_witness :
  let P := Fixtures.platform (Some "key") "[1]" in
  let doc_file := Fixtures.upload "notes.txt" "text/plain" (list_byte_of_string "hello") in
  main.process_query doc_file Fixtures.start
  = (Raise (HTTPException 400
              (JStr "Unsupported file type: text/plain. Please upload PDF or DOCX.")),
     Fixtures.start).
Proof.
  intros P doc_file.
  assert (Hpdf : content_type doc_file <> Some utils.PDF_TYPE) by discriminate.
  assert (Hdocx : content_type doc_file <> Some utils.DOCX_TYPE) by discriminate.
  exact (process_query_unsupported_document doc_file Fixtures.start Hpdf Hdocx).
Defined.

(** X16. Without a credential every query whose text is extracted is
    answered with status 500 and the detail "Gemini API key not configured
    on server."; nothing happens after the extraction: no request is
    sent. *)
Theorem process_query_without_credential `{P : Platform}
    (doc_file : UploadFile) (w w1 : World) (input_text : string) :
  GEMINI_API_KEY = None \/ GEMINI_API_KEY = Some "" ->
  utils.extract_text_from_upload doc_file w = (Ok input_text, w1) ->
  main.process_query doc_file w
  = (Raise (HTTPException 500 (JStr "Gemini API key not configured on server.")), w1).
Proof.
  intros Hkey Hextract.
  apply (process_query_answer doc_file w w1 w1 input_text _ utils.NOT_CONFIGURED
           Hextract (query_examples w1)).
  unfold utils.generate_json_with_gemini.
  now rewrite (api_key_not_configured Hkey).
Qed.

Lemma process_query_without_credential_witness :
  let P := Fixtures.platform None "[1]" in
  let w1 := {| db := Fixtures.empty_session; trace := [FileRead (Some "invoice.pdf")] |} in
  main.process_query Fixtures.sample_pdf Fixtures.start
  = (Raise (HTTPException 500 (JStr "Gemini API key not configured on server.")), w1).
Proof.
  intros P w1.
  assert (Hkey : GEMINI_API_KEY = None \/ GEMINI_API_KEY = Some "")
    by (left; reflexivity).
  assert (Hextract : utils.extract_text_from_upload Fixtures.sample_pdf Fixtures.start
                     = (Ok ("Invoice 42" ++ nl ++ "Total: 10"), w1)) by reflexivity.
  exact (process_query_without_credential Fixtures.sample_pdf Fixtures.start w1 _
           Hkey Hextract).
Defined.

(** X17. With a credential, a query whose text is extracted sends exactly
    one request, for the default model, whose prompt is built from the
    extracted text and the five newest rows of the store, or from the text
    alone when the store cannot be read. *)
Theorem process_query_request `{P : Platform}
    (doc_file : UploadFile) (w w1 w' : World) (input_text : string)
    (o : outcome JSONResponse) :
  utils.api_key_configured = true ->
  utils.extract_text_from_upload doc_file w = (Ok input_text, w1) ->
  main.process_query doc_file w = (o, w') ->
  trace w'
  = (trace w1
     ++ [GenerateContent utils.DEFAULT_MODEL
           (utils.full_prompt input_text
              (match storage_error (db w1) with
               | Some _ => []
               | None => firstn 5 (crud.order_by_id_desc (rows (db w1)))
               end))])%list.
Proof.
  intros Hkey Hextract.
  rewrite (process_query_answer _ _ _ _ _ _ _ Hextract (query_examples w1)
             (generate_configured _ _ _ _ Hkey)).
  now intros [= _ <-].
Qed.

Lemma process_query_request_witness :
  let P := Fixtures.platform (Some "key") "[1]" in
  let w := {| db := {| rows := [Fixtures.pair 1 "a" JNull]; pending := [];
                       storage_error := Some (Exception "database is locked") |};
              trace := [] |} in
  exists o w',
    main.process_query Fixtures.sample_pdf w = (o, w')
    /\ trace w'
       = [FileRead (Some "invoice.pdf");
          GenerateContent utils.DEFAULT_MODEL
            (utils.full_prompt ("Invoice 42" ++ nl ++ "Total: 10") [])].
Proof.
  intros P w.
  set (w1 := {| db := db w; trace := [FileRead (Some "invoice.pdf")] |}).
  assert (Hkey : utils.api_key_configured = true) by reflexivity.
  assert (Hextract : utils.extract_text_from_upload Fixtures.sample_pdf w
                     = (Ok ("Invoice 42" ++ nl ++ "Total: 10"), w1)) by reflexivity.
  destruct (main.process_query Fixtures.sample_pdf w) as [o w'] eqn:Hrun.
  exists o, w'. split; [reflexivity |].
  exact (process_query_request Fixtures.sample_pdf w w1 w' _ o Hkey Hextract Hrun).
Defined.

(** ** The query endpoint: how each outcome of the service is answered *)

(** X18. When the call to the generation service raises, [process_query]
    answers with status 500 and the detail "An error occurred while
    communicating with the AI service: " followed by the exception's
    message. *)
Theorem process_query_transport_failure `{P : Platform}
    (doc_file : UploadFile) (w w1 : World) (input_text : string)
    (examples : list TrainingPair) (failure : exn) :
  utils.extract_text_from_upload doc_file w = (Ok input_text, w1) ->
  crud.get_training_examples 5 w1 = (Ok examples, w1) ->
  utils.api_key_configured = true ->
  generate_content_async utils.DEFAULT_MODEL (utils.full_prompt input_text examples)
  = Raise failure ->
  fst (main.process_query doc_file w)
  = Raise (HTTPException 500
             (JStr ("An error occurred while communicating with the AI service: "
                    ++ str_exn failure))).
Proof.
  intros Hextract Hexamples Hkey Hservice.
  rewrite (process_query_answer _ _ _ _ _ _ _ Hextract Hexamples
             (generate_configured _ _ _ _ Hkey)).
  rewrite Hservice. reflexivity.
Qed.

Lemma process_query_transport_failure_witness :
  let P := reference_platform Fixtures.pdf_reader Fixtures.docx_reader (Some "key")
             (fun _ _ => Raise (Exception "429 Resource exhausted")) in
  fst (main.process_query Fixtures.sample_pdf Fixtures.start)
  = Raise (HTTPException 500
             (JStr "An error occurred while communicating with the AI service: 429 Resource exhausted")).
Proof.
  intros P.
  set (w1 := {| db := Fixtures.empty_session; trace := [FileRead (Some "invoice.pdf")] |}).
  assert (Hextract : utils.extract_text_from_upload Fixtures.sample_pdf Fixtures.start
                     = (Ok ("Invoice 42" ++ nl ++ "Total: 10"), w1)) by reflexivity.
  assert (Hexamples : crud.get_training_examples 5 w1 = (Ok [], w1)) by reflexivity.
  assert (Hkey : utils.api_key_configured = true) by reflexivity.
  exact (process_query_transport_failure Fixtures.sample_pdf Fixtures.start w1 _ []
           (Exception "429 Resource exhausted") Hextract Hexamples Hkey eq_refl).
Defined.

(** X19. When the service returns no candidate, [process_query] answers
    with status 500 and the detail "Content generation blocked. Feedback: "
    followed by the prompt feedback, or by "No feedback available" when the
    response has none; the text of the response is not looked at. *)
Theorem process_query_blocked `{P : Platform}
    (doc_file : UploadFile) (w w1 : World) (input_text : string)
    (examples : list TrainingPair) (response : GenerateContentResponse) :
  utils.extract_text_from_upload doc_file w = (Ok input_text, w1) ->
  crud.get_training_examples 5 w1 = (Ok examples, w1) ->
  utils.api_key_configured = true ->
  generate_content_async utils.DEFAULT_MODEL (utils.full_prompt input_text examples)
  = Ok response ->
  candidates response = [] ->
  fst (main.process_query doc_file w)
  = Raise (HTTPException 500
             (JStr ("Content generation blocked. Feedback: "
                    ++ match prompt_feedback response with
                       | Some f => f
                       | None => "No feedback available"
                       end))).
Proof.
  intros Hextract Hexamples Hkey Hservice Hblocked.
  rewrite (process_query_answer _ _ _ _ _ _ _ Hextract Hexamples
             (generate_configured _ _ _ _ Hkey)).
  rewrite Hservice, Hblocked. reflexivity.
Qed.

Lemma process_query_blocked_witness :
  let response := {| candidates := []; prompt_feedback := Some "block_reason: SAFETY";
                     text := Raise (Exception "no valid Part") |} in
  let P := reference_platform Fixtures.pdf_reader Fixtures.docx_reader (Some "key")
             (fun _ _ => Ok response) in
  fst (main.process_query Fixtures.sample_pdf Fixtures.start)
  = Raise (HTTPException 500
             (JStr "Content generation blocked. Feedback: block_reason: SAFETY")).
Proof.
  intros response P.
  set (w1 := {| db := Fixtures.empty_session; trace := [FileRead (Some "invoice.pdf")] |}).
  assert (Hextract : utils.extract_text_from_upload Fixtures.sample_pdf Fixtures.start
                     = (Ok ("Invoice 42" ++ nl ++ "Total: 10"), w1)) by reflexivity.
  assert (Hexamples : crud.get_training_examples 5 w1 = (Ok [], w1)) by reflexivity.
  assert (Hkey : utils.api_key_configured = true) by reflexivity.
  exact (process_query_blocked Fixtures.sample_pdf Fixtures.start w1 _ [] response
           Hextract Hexamples Hkey eq_refl eq_refl).
Defined.

(** X20. When the completion does not parse, [process_query] answers with
    status 500 and the bare detail "Failed to parse JSON from AI
    response.": the [raw_response] field of the utility's payload is not
    passed on to the client. *)
Theorem process_query_unparseable `{P : Platform}
    (doc_file : UploadFile) (w w1 : World) (input_text : string)
    (examples : list TrainingPair) (response : GenerateContentResponse)
    (completion m : string) :
  utils.extract_text_from_upload doc_file w = (Ok input_text, w1) ->
  crud.get_training_examples 5 w1 = (Ok examples, w1) ->
  utils.api_key_configured = true ->
  generate_content_async utils.DEFAULT_MODEL (utils.full_prompt input_text examples)
  = Ok response ->
  candidates response <> [] ->
  text response = Ok completion ->
  json_loads (strip (utils.remove_fences completion)) = Raise (JSONDecodeError m) ->
  fst (main.process_query doc_file w)
  = Raise (HTTPException 500 (JStr "Failed to parse JSON from AI response.")).
Proof.
  intros Hextract Hexamples Hkey Hservice Hcandidates Htext Hloads.
  rewrite (process_query_answer _ _ _ _ _ _ _ Hextract Hexamples
             (generate_completion _ _ _ _ _ _ Hkey Hservice Hcandidates Htext)).
  unfold utils.parse_generated. rewrite Hloads. reflexivity.
Qed.

Lemma process_query_unparseable_witness :
  let P := Fixtures.platform (Some "key") "Sorry, I cannot help with that." in
  fst (main.process_query Fixtures.sample_pdf Fixtures.start)
  = Raise (HTTPException 500 (JStr "Failed to parse JSON from AI response.")).
Proof.
  intros P.
  set (w1 := {| db := Fixtures.empty_session; trace := [FileRead (Some "invoice.pdf")] |}).
  set (completion := "Sorry, I cannot help with that.").
  assert (Hextract : utils.extract_text_from_upload Fixtures.sample_pdf Fixtures.start
                     = (Ok ("Invoice 42" ++ nl ++ "Total: 10"), w1)) by reflexivity.
  assert (Hexamples : crud.get_training_examples 5 w1 = (Ok [], w1)) by reflexivity.
  assert (Hkey : utils.api_key_configured = true) by reflexivity.
  assert (Hcandidates : [completion] <> []) by discriminate.
  assert (Hloads : json_loads (strip (utils.remove_fences completion))
                   = Raise (JSONDecodeError "Expecting value")) by reflexivity.
  exact (process_query_unparseable Fixtures.sample_pdf Fixtures.start w1 _ []
           {| candidates := [completion]; prompt_feedback := None;
              text := Ok completion |}
           completion "Expecting value"
           Hextract Hexamples Hkey eq_refl Hcandidates eq_refl Hloads).
Defined.

(** X21. When the completion parses to a value that is not an object with
    a top-level key "error", [process_query] builds the response from it:
    when the value can be rendered as a response body the answer has
    status 200 and that value as the body; when rendering raises (as it
    does for a float that is not a number of JSON), the answer is the 500
    error "An unexpected server error occurred during JSON generation: "
    followed by the message of that exception. *)
Theorem process_query_returns_generated_value `{P : Platform}
    (doc_file : UploadFile) (w w1 : World) (input_text : string)
    (examples : list TrainingPair) (response : GenerateContentResponse)
    (completion : string) (v : json) :
  utils.extract_text_from_upload doc_file w = (Ok input_text, w1) ->
  crud.get_training_examples 5 w1 = (Ok examples, w1) ->
  utils.api_key_configured = true ->
  generate_content_async utils.DEFAULT_MODEL (utils.full_prompt input_text examples)
  = Ok response ->
  candidates response <> [] ->
  text response = Ok completion ->
  json_loads (strip (utils.remove_fences completion)) = Ok v ->
  (forall items, v = JDict items -> dict_get "error" items = None) ->
  fst (main.process_query doc_file w)
  = match JSONResponse_render_error v with
    | None => Ok {| status_code := 200; content := v |}
    | Some message =>
        Raise (HTTPException 500
                 (JStr ("An unexpected server error occurred during JSON generation: "
                        ++ message)))
    end.
Proof.
  intros Hextract Hexamples Hkey Hservice Hcandidates Htext Hloads Hclean.
  rewrite (process_query_answer _ _ _ _ _ _ _ Hextract Hexamples
             (generate_completion _ _ _ _ _ _ Hkey Hservice Hcandidates Htext)).
  unfold utils.parse_generated. rewrite Hloads. cbn [fst].
  unfold Spec.query_answer.
  destruct v; try reflexivity.
  now rewrite (Hclean items eq_refl).
Qed.

Lemma process_query_returns_generated_value_witness :
  let fenced := "```json" ++ nl ++ "{" ++ dq ++ "total" ++ dq ++ ": 10}" ++ nl ++ "```" in
  let unbounded := "{" ++ dq ++ "total" ++ dq ++ ": NaN}" in
  fst (@main.process_query (Fixtures.platform (Some "key") fenced)
         Fixtures.sample_pdf Fixtures.start)
  = Ok {| status_code := 200; content := JDict [("total", JInt 10)] |}
  /\ exists message,
       JSONResponse_render_error (Platform := Fixtures.platform (Some "key") unbounded)
         (JDict [("total", JFloat "nan")]) = Some message
       /\ fst (@main.process_query (Fixtures.platform (Some "key") unbounded)
                 Fixtures.sample_pdf Fixtures.start)
          = Raise (HTTPException 500
                     (JStr ("An unexpected server error occurred during JSON generation: "
                            ++ message))).
Proof.
  intros fenced unbounded.
  set (w1 := {| db := Fixtures.empty_session; trace := [FileRead (Some "invoice.pdf")] |}).
  split.
  - pose (P := Fixtures.platform (Some "key") fenced).
    assert (Hextract : utils.extract_text_from_upload Fixtures.sample_pdf Fixtures.start
                       = (Ok ("Invoice 42" ++ nl ++ "Total: 10"), w1)) by reflexivity.
    assert (Hexamples : crud.get_training_examples 5 w1 = (Ok [], w1)) by reflexivity.
    assert (Hkey : utils.api_key_configured = true) by reflexivity.
    assert (Hcandidates : [fenced] <> []) by discriminate.
    assert (Hloads : json_loads (strip (utils.remove_fences fenced))
                     = Ok (JDict [("total", JInt 10)])) by reflexivity.
    assert (Hclean : forall items, JDict [("total", JInt 10)] = JDict items ->
                                   dict_get "error" items = None)
      by (now intros items [= <-]).
    exact (process_query_returns_generated_value Fixtures.sample_pdf Fixtures.start w1 _ []
             {| candidates := [fenced]; prompt_feedback := None; text := Ok fenced |}
             fenced _ Hextract Hexamples Hkey eq_refl Hcandidates eq_refl Hloads Hclean).
  - eexists. split; [reflexivity |].
    pose (P := Fixtures.platform (Some "key") unbounded).
    assert (Hextract : utils.extract_text_from_upload Fixtures.sample_pdf Fixtures.start
                       = (Ok ("Invoice 42" ++ nl ++ "Total: 10"), w1)) by reflexivity.
    assert (Hexamples : crud.get_training_examples 5 w1 = (Ok [], w1)) by reflexivity.
    assert (Hkey : utils.api_key_configured = true) by reflexivity.
    assert (Hcandidates : [unbounded] <> []) by discriminate.
    assert (Hloads : json_loads (strip (utils.remove_fences unbounded))
                     = Ok (JDict [("total", JFloat "nan")])) by reflexivity.
    assert (Hclean : forall items, JDict [("total", JFloat "nan")] = JDict items ->
                                   dict_get "error" items = None)
      by (now intros items [= <-]).
    exact (process_query_returns_generated_value Fixtures.sample_pdf Fixtures.start w1 _ []
             {| candidates := [unbounded]; prompt_feedback := None;
                text := Ok unbounded |}
             unbounded _ Hextract Hexamples Hkey eq_refl Hcandidates eq_refl Hloads
             Hclean).
Defined.

(** ** The prompt: where the input text goes *)

Lemma example_blocks_length `{P : Platform} (start : nat) (l : list TrainingPair) :
  List.length (Spec.example_blocks start l) = 5 * List.length l.
Proof.
  revert start. induction l as [|x l IH]; intros start; [reflexivity |].
  change (Spec.example_blocks start (x :: l))
    with (Spec.example_block start x ++ Spec.example_blocks (S start) l)%list.
  rewrite length_app, IH. cbn [List.length Spec.example_block]. lia.
Qed.

(** X22. Whatever the examples, the last three parts of the prompt are the
    marker of the new input, the input text verbatim between fences, and
    the marker of the expected output; the prompt contains them joined by
    newlines, and has 9 parts without examples and [8 + 5 k] parts with
    [k > 0] examples. *)
Theorem prompt_ends_with_input `{P : Platform}
    (input_text : string) (examples : list TrainingPair) :
  let parts := utils.prompt_parts input_text examples in
  skipn (List.length parts - 3) parts = Spec.input_section input_text
  /\ contains (utils.full_prompt input_text examples)
       (nl ++ "--- New Input Text ---" ++ nl
        ++ "```" ++ nl ++ input_text ++ nl ++ "```" ++ nl
        ++ nl ++ "--- Generated JSON Output ---")
  /\ List.length parts
     = match examples with
       | [] => 9
       | _ :: _ => 8 + 5 * List.length examples
       end.
Proof.
  cbv zeta. unfold utils.full_prompt. rewrite prompt_parts_sections.
  pose proof example_blocks_length as Hblocks.
  unfold Spec.prompt_sections.
  set (middle := match examples with
                 | [] => [utils.NO_EXAMPLES_LINE]
                 | _ :: _ => Spec.example_blocks 1 examples
                 end).
  assert (Hlen : List.length (utils.PROMPT_HEADER ++ middle
                              ++ Spec.input_section input_text)%list
                 = List.length (utils.PROMPT_HEADER ++ middle)%list + 3).
  { rewrite !length_app. cbn [List.length Spec.input_section]. lia. }
  split; [| split].
  - rewrite Hlen. rewrite app_assoc.
    replace (List.length (utils.PROMPT_HEADER ++ middle)%list + 3 - 3)
      with (List.length (utils.PROMPT_HEADER ++ middle)%list + 0) by lia.
    rewrite skipn_app, skipn_all2 by lia.
    replace (List.length (utils.PROMPT_HEADER ++ middle)%list + 0
             - List.length (utils.PROMPT_HEADER ++ middle)%list) with 0 by lia.
    reflexivity.
  - pose proof (join_infix nl (utils.PROMPT_HEADER ++ middle)
                  (Spec.input_section input_text) []) as Hinfix.
    rewrite app_nil_r, <- app_assoc in Hinfix.
    destruct Hinfix as [pre [post Hjoin]]. exists pre, post.
    rewrite Hjoin. unfold join, Spec.input_section. cbn [String.concat].
    now rewrite !append_assoc.
  - rewrite Hlen, length_app. subst middle.
    destruct examples as [|example rest]; [reflexivity |].
    rewrite Hblocks. cbn [List.length utils.PROMPT_HEADER]. lia.
Qed.

(** ** The declared type selects the extractor *)

(** X23. For a file whose body can be read, [extract_text_from_upload]
    chooses the extractor by the declared type alone: a file declared as
    PDF is given to [extract_text_from_pdf] and a file declared as DOCX to
    [extract_text_from_docx], whatever the bytes are; the body is read
    once. *)
Theorem extract_text_from_upload_dispatch `{P : Platform}
    (file : UploadFile) (content : list byte) (w : World) :
  body file = Ok content ->
  let w' := {| db := db w; trace := (trace w ++ [FileRead (filename file)])%list |} in
  (content_type file = Some utils.PDF_TYPE ->
   utils.extract_text_from_upload file w = (Ok (utils.extract_text_from_pdf content), w'))
  /\ (content_type file = Some utils.DOCX_TYPE ->
      utils.extract_text_from_upload file w
      = (Ok (utils.extract_text_from_docx content), w')).
Proof.
  intros Hbody w'. subst w'. unfold utils.extract_text_from_upload.
  split; intros Htype.
  - assert (Hpdf : utils.content_type_is file utils.PDF_TYPE = true)
      by now apply content_type_is_true.
    unfold utils.content_type_supported. cbn [existsb utils.SUPPORTED_DOC_TYPES].
    rewrite Hpdf. cbn [orb negb]. run_monad. now rewrite Hbody.
  - assert (Hdocx : utils.content_type_is file utils.DOCX_TYPE = true)
      by now apply content_type_is_true.
    assert (Hpdf : utils.content_type_is file utils.PDF_TYPE = false).
    { apply content_type_is_false. rewrite Htype. discriminate. }
    unfold utils.content_type_supported. cbn [existsb utils.SUPPORTED_DOC_TYPES].
    rewrite Hpdf, Hdocx. cbn [orb negb]. run_monad. now rewrite Hbody.
Qed.

Lemma extract_text_from_upload_dispatch_witness :
  let P := Fixtures.platform None "" in
  let file := Fixtures.upload "letter.docx" utils.DOCX_TYPE Fixtures.SAMPLE_PDF in
  body file = Ok Fixtures.SAMPLE_PDF
  /\ content_type file = Some utils.DOCX_TYPE
  /\ utils.extract_text_from_upload file Fixtures.start
     = (Ok "", {| db := Fixtures.empty_session;
                  trace := [FileRead (Some "letter.docx")] |}).
Proof.
  intros P file.
  split; [reflexivity | split; [reflexivity |]].
  exact (proj2 (extract_text_from_upload_dispatch file Fixtures.SAMPLE_PDF Fixtures.start
                  eq_refl) eq_refl).
Defined.
